(** * Enrollment service: admission and waitlist engine

    A shallow embedding of the handlers of [services/enrollment/api.py]
    that join, drop and cascade-delete, over an explicit store holding the
    three tables the handlers query ([sections], [enrollments],
    [waitlist]).  Every SQL statement of a handler is one named function
    on the store; a handler is the sequence of its statements in a small
    state-and-exception monad, so that an exception raised half-way
    through a handler is visible together with the store it leaves.

    Integers (ids, capacities, positions, counts) are [Z]; tables are
    lists of rows in insertion order, since the handlers rely on which
    row comes first ([enrollments[0]], the first row of a [RETURNING]).

    What is not among the sources and how it is taken here:
    - the table declarations: the handlers insert without any test for an
      existing row, and the tables are modelled accordingly as plain row
      lists on which an [INSERT] always appends;
    - [internal.database] ([fetch_row], [fetch_rows], [write_row]): run
      the statement; [fetch_row] yields the first row or [None];
    - [database.list_enrollments], [database.list_sections]: see their
      doc comments below. *)

From Stdlib Require Import ZArith List Bool Lia.
From Stdlib Require String.
Import ListNotations.
Import String.StringSyntax.
Abbreviation string := String.string.
Open Scope string_scope.
Open Scope Z_scope.

(** ** Data model *)

Inductive EnrollmentStatus : Type := Enrolled | Waitlisted | Dropped.

Inductive Role : Type := Student | Instructor | Registrar.

Definition status_eqb (a b : EnrollmentStatus) : bool :=
  match a, b with
  | Enrolled, Enrolled | Waitlisted, Waitlisted | Dropped, Dropped => true
  | _, _ => false
  end.

Definition role_eqb (a b : Role) : bool :=
  match a, b with
  | Student, Student | Instructor, Instructor | Registrar, Registrar => true
  | _, _ => false
  end.

(** The columns of [sections] that the handlers below read or write. *)
Record SectionRow : Type := mkSection {
  s_id : Z;
  s_capacity : Z;
  s_waitlist_capacity : Z;
  s_freeze : bool;
  s_deleted : bool;
  s_instructor_id : Z
}.

Record EnrollmentRow : Type := mkEnrollment {
  e_user_id : Z;
  e_section_id : Z;
  e_status : EnrollmentStatus;
  e_grade : option string;
  e_date : Z
}.

Record WaitlistRow : Type := mkWaitlist {
  w_user_id : Z;
  w_section_id : Z;
  w_position : Z;
  w_date : Z
}.

Record DB : Type := mkDB {
  sections : list SectionRow;
  enrollments : list EnrollmentRow;
  waitlist : list WaitlistRow
}.

Definition with_sections (db : DB) (l : list SectionRow) : DB :=
  mkDB l (enrollments db) (waitlist db).

Definition with_enrollments (db : DB) (l : list EnrollmentRow) : DB :=
  mkDB (sections db) l (waitlist db).

Definition with_waitlist (db : DB) (l : list WaitlistRow) : DB :=
  mkDB (sections db) (enrollments db) l.

(** [model_requests.py] *)
Record CreateEnrollmentRequest : Type := mkCreateEnrollmentRequest {
  section : Z
}.

(** [class CreateEnrollmentResponse(Enrollment): waitlist_position: int | None] *)
Record CreateEnrollmentResponse : Type := mkCreateEnrollmentResponse {
  enrollment_of : EnrollmentRow;
  waitlist_position : option Z
}.

(** ** Exceptions and the handler monad *)

Inductive Exn : Type :=
| HTTPException (status_code : Z) (detail : string)
| IndexError
| TypeError
| AssertionError.

(** The outcome of running a handler: the value returned or the exception
    raised, each with the store as it is at that moment. *)
Inductive Res (A : Type) : Type :=
| Ok (a : A) (db : DB)
| Raise (e : Exn) (db : DB).

Arguments Ok {A} a db.
Arguments Raise {A} e db.

Definition M (A : Type) : Type := DB -> Res A.

Definition ret {A} (a : A) : M A := fun db => Ok a db.

Definition bind {A B} (m : M A) (k : A -> M B) : M B :=
  fun db =>
    match m db with
    | Ok a db' => k a db'
    | Raise e db' => Raise e db'
    end.

Definition raise {A} (e : Exn) : M A := fun db => Raise e db.

(** A read-only query. *)
Definition query {A} (q : DB -> A) : M A := fun db => Ok (q db) db.

(** A statement that writes. *)
Definition exec (w : DB -> DB) : M unit := fun db => Ok tt (w db).

(** A statement that writes and returns ([... RETURNING ...]). *)
Definition exec_returning {A} (w : DB -> A * DB) : M A :=
  fun db => let (a, db') := w db in Ok a db'.

Notation "x <- m ;; k" := (bind m (fun x => k))
  (at level 61, m at next level, right associativity).
Notation "m ;; k" := (bind m (fun _ => k))
  (at level 61, right associativity).

Definition db_of {A} (r : Res A) : DB :=
  match r with Ok _ db => db | Raise _ db => db end.

Definition res_map_db {A} (f : DB -> DB) (r : Res A) : Res A :=
  match r with Ok a db => Ok a (f db) | Raise e db => Raise e (f db) end.

Fixpoint for_each {A} (xs : list A) (body : A -> M unit) : M unit :=
  match xs with
  | [] => ret tt
  | x :: xs' => body x ;; for_each xs' body
  end.

(** A handler parameter declared [= Depends(...)].  Through the router it
    arrives injected; when the handler is called as a plain Python
    function without that argument it is the [Depends] marker object
    itself. *)
Inductive Dep (A : Type) : Type :=
| Injected (a : A)
| DependsMarker.

Arguments Injected {A} a.
Arguments DependsMarker {A}.

(** ** The SQL statements of the handlers *)

Definition has_role (r : Role) (roles : list Role) : bool :=
  existsb (role_eqb r) roles.

Definition in_section (sid : Z) (e : EnrollmentRow) : bool :=
  e_section_id e =? sid.

Definition is_pair (uid sid : Z) (e : EnrollmentRow) : bool :=
  (e_user_id e =? uid) && (e_section_id e =? sid).

Definition on_section (sid : Z) (w : WaitlistRow) : bool :=
  w_section_id w =? sid.

Definition is_entry (uid sid : Z) (w : WaitlistRow) : bool :=
  (w_user_id w =? uid) && (w_section_id w =? sid).

(** [SELECT COUNT( * ) FROM enrollments WHERE section_id = :section] *)
Definition count_section_enrollments (db : DB) (sid : Z) : Z :=
  Z.of_nat (length (filter (in_section sid) (enrollments db))).

(** [SELECT COUNT( * ) FROM waitlist WHERE section_id = :section] *)
Definition count_section_waitlist (db : DB) (sid : Z) : Z :=
  Z.of_nat (length (filter (on_section sid) (waitlist db))).

(** [SELECT COUNT( * ) FROM waitlist WHERE user_id = :user] *)
Definition count_user_waitlist (db : DB) (uid : Z) : Z :=
  Z.of_nat (length (filter (fun w => w_user_id w =? uid) (waitlist db))).

(** The first query of [create_enrollment]:
    [SELECT id FROM sections as s WHERE s.id = :section
     AND s.capacity > (SELECT COUNT( * ) FROM enrollments WHERE section_id = :section)
     AND s.freeze = FALSE AND s.deleted = FALSE] *)
Definition has_space (db : DB) (sid : Z) (s : SectionRow) : bool :=
  (s_id s =? sid)
  && (s_capacity s >? count_section_enrollments db sid)
  && negb (s_freeze s)
  && negb (s_deleted s).

Definition select_section_with_space (sid : Z) (db : DB) : option Z :=
  hd_error (map s_id (filter (has_space db sid) (sections db))).

(** The second query of [create_enrollment]:
    [... AND s.waitlist_capacity > (SELECT COUNT( * ) FROM waitlist WHERE section_id = :section)
     AND (SELECT COUNT( * ) FROM waitlist WHERE user_id = :user) < 3
     AND s.freeze = FALSE AND s.deleted = FALSE] *)
Definition has_waitlist_space (db : DB) (sid uid : Z) (s : SectionRow) : bool :=
  (s_id s =? sid)
  && (s_waitlist_capacity s >? count_section_waitlist db sid)
  && (count_user_waitlist db uid <? 3)
  && negb (s_freeze s)
  && negb (s_deleted s).

Definition select_section_with_waitlist_space (sid uid : Z) (db : DB)
  : option Z :=
  hd_error (map s_id (filter (has_waitlist_space db sid uid) (sections db))).

(** [INSERT INTO enrollments (user_id, section_id, status, grade, date)
     VALUES(:user, :section, <status>, NULL, CURRENT_TIMESTAMP)] *)
Definition insert_enrollment (uid sid : Z) (st : EnrollmentStatus) (now : Z)
  (db : DB) : DB :=
  with_enrollments db (enrollments db ++ [mkEnrollment uid sid st None now]).

(** [INSERT INTO waitlist (user_id, section_id, position, date)
     VALUES(:user, :section,
            (SELECT COUNT( * ) FROM waitlist WHERE section_id = :section),
            CURRENT_TIMESTAMP)
     RETURNING position] *)
Definition insert_waitlist_returning_position (uid sid now : Z) (db : DB)
  : option Z * DB :=
  let position := count_section_waitlist db sid in
  (Some position,
   with_waitlist db (waitlist db ++ [mkWaitlist uid sid position now])).

(** [UPDATE enrollments SET status = 'Dropped'
     WHERE user_id = :user_id AND section_id = :section_id
       AND status = 'Enrolled'] *)
Definition set_dropped (uid sid : Z) (e : EnrollmentRow) : EnrollmentRow :=
  if is_pair uid sid e && status_eqb (e_status e) Enrolled
  then mkEnrollment (e_user_id e) (e_section_id e) Dropped (e_grade e) (e_date e)
  else e.

Definition update_enrollment_dropped (uid sid : Z) (db : DB) : DB :=
  with_enrollments db (map (set_dropped uid sid) (enrollments db)).

(** [DELETE FROM waitlist WHERE user_id = :user_id AND section_id = :section_id
     RETURNING position]: every matching row goes, [fetch_row] hands back
    the first of them. *)
Definition delete_waitlist_returning_position (uid sid : Z) (db : DB)
  : option Z * DB :=
  (hd_error (map w_position (filter (is_entry uid sid) (waitlist db))),
   with_waitlist db (filter (fun w => negb (is_entry uid sid w)) (waitlist db))).

(** [UPDATE waitlist SET position = position - 1
     WHERE section_id = :section_id AND position > :position] *)
Definition decrement (sid position : Z) (w : WaitlistRow) : WaitlistRow :=
  if on_section sid w && (w_position w >? position)
  then mkWaitlist (w_user_id w) (w_section_id w) (w_position w - 1) (w_date w)
  else w.

Definition update_waitlist_decrement (sid position : Z) (db : DB) : DB :=
  with_waitlist db (map (decrement sid position) (waitlist db)).

(** [DELETE FROM enrollments WHERE user_id = :user_id
     AND section_id = :section_id AND status = 'Waitlisted'] *)
Definition is_waitlisted_pair (uid sid : Z) (e : EnrollmentRow) : bool :=
  is_pair uid sid e && status_eqb (e_status e) Waitlisted.

Definition delete_waitlisted_enrollment (uid sid : Z) (db : DB) : DB :=
  with_enrollments db
    (filter (fun e => negb (is_waitlisted_pair uid sid e)) (enrollments db)).

(** [SELECT instructor_id FROM sections WHERE id = :section_id] *)
Definition select_instructor_id (sid : Z) (db : DB) : option Z :=
  hd_error (map s_instructor_id (filter (fun s => s_id s =? sid) (sections db))).

(** [UPDATE sections SET deleted = TRUE WHERE id = :section_id] *)
Definition set_deleted (sid : Z) (s : SectionRow) : SectionRow :=
  if s_id s =? sid
  then mkSection (s_id s) (s_capacity s) (s_waitlist_capacity s) (s_freeze s)
         true (s_instructor_id s)
  else s.

Definition update_section_deleted (sid : Z) (db : DB) : DB :=
  with_sections db (map (set_deleted sid) (sections db)).

(** [SELECT user_id FROM enrollments WHERE section_id = :section_id] *)
Definition select_enrollment_users (sid : Z) (db : DB) : list Z :=
  map e_user_id (filter (in_section sid) (enrollments db)).

(** [SELECT user_id FROM waitlist WHERE section_id = :section_id] *)
Definition select_waitlist_users (sid : Z) (db : DB) : list Z :=
  map w_user_id (filter (on_section sid) (waitlist db)).

(** Modelled from the spec: [database.list_enrollments] is not among the
    sources.  It is handed (user_id, section_id) pairs and gives back the
    Enrollment records of those pairs ("Enrollment: a record keyed by
    (user_id, section_id) with a status ... and an optional grade"); here
    the rows of [enrollments] for those pairs, in table order. *)
Definition list_enrollments (db : DB) (pairs : list (Z * Z))
  : list EnrollmentRow :=
  filter (fun e => existsb (fun p => is_pair (fst p) (snd p) e) pairs)
    (enrollments db).

(** Modelled from the spec: [database.list_sections] is not among the
    sources.  [delete_section] uses it through [get_section] to "verify
    the section exists (not already deleted)"; here the rows of
    [sections] with one of the given ids that are not deleted. *)
Definition list_sections (db : DB) (ids : list Z) : list SectionRow :=
  filter (fun s => existsb (Z.eqb (s_id s)) ids && negb (s_deleted s))
    (sections db).

(** ** Handlers of [api.py] *)

(** [Role.REGISTRAR not in jwt_roles]: the membership test on a value
    that is not a container (the [Depends] marker) raises [TypeError]. *)
Definition not_in_roles (r : Role) (jwt_roles : Dep (list Role)) : M bool :=
  match jwt_roles with
  | Injected roles => ret (negb (has_role r roles))
  | DependsMarker => raise TypeError
  end.

(** [jwt_user != user_id] *)
Definition dep_neqb (jwt_user : Dep Z) (user_id : Z) : bool :=
  match jwt_user with
  | Injected u => negb (u =? user_id)
  | DependsMarker => true
  end.

(** [enrollments[0]] *)
Definition first_item {A} (l : list A) : M A :=
  match l with
  | x :: _ => ret x
  | [] => raise IndexError
  end.

(** [@app.get("/sections/{section_id}")] *)
Definition get_section (section_id : Z) : M SectionRow :=
  sections <- query (fun db => list_sections db [section_id]) ;;
  match sections with
  | [] => raise (HTTPException 404 "Section not found")
  | s :: _ => ret s
  end.

(** [@app.post("/users/{user_id}/enrollments")]; [now] is the value of
    [CURRENT_TIMESTAMP]. *)
Definition create_enrollment (user_id : Z) (enrollment : CreateEnrollmentRequest)
  (jwt_user : Z) (jwt_roles : list Role) (now : Z)
  : M CreateEnrollmentResponse :=
  if negb (has_role Registrar jwt_roles) && negb (jwt_user =? user_id)
  then raise (HTTPException 403 "Not authorized")
  else
    let d_user := user_id in
    let d_section := section enrollment in
    id <- query (select_section_with_space d_section) ;;
    waitlist_position <-
      match id with
      | Some _ =>
          exec (insert_enrollment d_user d_section Enrolled now) ;;
          ret None
      | None =>
          id <- query (select_section_with_waitlist_space d_section d_user) ;;
          match id with
          | Some _ =>
              row <- exec_returning
                       (insert_waitlist_returning_position d_user d_section now) ;;
              match row with
              | None => raise AssertionError
              | Some position =>
                  exec (insert_enrollment d_user d_section Waitlisted now) ;;
                  ret (Some position)
              end
          | None =>
              raise (HTTPException 400 "Section is full and waitlist is full.")
          end
      end ;;
    enrollments <- query (fun db => list_enrollments db [(d_user, d_section)]) ;;
    e <- first_item enrollments ;;
    ret (mkCreateEnrollmentResponse e waitlist_position).

(** [@app.delete("/users/{user_id}/enrollments/{section_id}")] *)
Definition drop_user_enrollment (user_id section_id : Z) : M EnrollmentRow :=
  exec (update_enrollment_dropped user_id section_id) ;;
  enrollments <- query (fun db => list_enrollments db [(user_id, section_id)]) ;;
  first_item enrollments.

(** [@app.delete("/users/{user_id}/waitlist/{section_id}")] *)
Definition drop_user_waitlist (user_id section_id : Z)
  (jwt_user : Dep Z) (jwt_roles : Dep (list Role)) : M unit :=
  not_registrar <- not_in_roles Registrar jwt_roles ;;
  if not_registrar && dep_neqb jwt_user user_id
  then raise (HTTPException 403 "Not authorized")
  else
    row <- exec_returning
             (delete_waitlist_returning_position user_id section_id) ;;
    match row with
    | None => raise (HTTPException 400 "User is not on the waitlist.")
    | Some position =>
        exec (update_waitlist_decrement section_id position) ;;
        exec (delete_waitlisted_enrollment user_id section_id)
    end.

(** [@app.delete("/sections/{section_id}/enrollments/{user_id}")] *)
Definition drop_section_enrollment (section_id user_id : Z)
  (jwt_user : Z) (jwt_roles : list Role) : M EnrollmentRow :=
  (if negb (has_role Registrar jwt_roles) && negb (jwt_user =? user_id)
   then
     row <- query (select_instructor_id section_id) ;;
     match row with
     | None => raise (HTTPException 404 "Section not found.")
     | Some instructor_id =>
         if negb (instructor_id =? jwt_user)
         then raise (HTTPException 403 "Not authorized")
         else ret tt
     end
   else ret tt) ;;
  drop_user_enrollment user_id section_id.

(** [@app.delete("/sections/{section_id}")].  The two inner handlers are
    called as plain functions with [(user, section_id, db)]:
    [drop_user_waitlist] thus runs with its [jwt_user] and [jwt_roles]
    left at their [Depends(...)] defaults.  ([print(u)] writes to the
    process's standard output only and is left out.) *)
Definition delete_section (section_id : Z) : M unit :=
  get_section section_id ;;
  exec (update_section_deleted section_id) ;;
  ue <- query (select_enrollment_users section_id) ;;
  for_each ue (fun u => drop_user_enrollment u section_id ;; ret tt) ;;
  uw <- query (select_waitlist_users section_id) ;;
  for_each uw (fun u =>
    drop_user_waitlist u section_id DependsMarker DependsMarker).

(** ** The router *)

(** The verified identity a request arrives with ([require_x_user],
    [require_x_roles]). *)
Record Caller : Type := mkCaller {
  caller_user : Z;
  caller_roles : list Role
}.

Inductive Request : Type :=
| CreateEnrollment (user_id : Z) (body : CreateEnrollmentRequest)
| DropUserEnrollment (user_id section_id : Z)
| DropUserWaitlist (user_id section_id : Z)
| DropSectionEnrollment (section_id user_id : Z)
| DeleteSection (section_id : Z).

Inductive Response : Type :=
| CreatedEnrollment (r : CreateEnrollmentResponse)
| AnEnrollment (e : EnrollmentRow)
| NoContent.

(** One request served: the router injects into a handler the
    dependencies that the handler declares, and nothing else. *)
Definition serve (c : Caller) (now : Z) (r : Request) : M Response :=
  match r with
  | CreateEnrollment user_id body =>
      x <- create_enrollment user_id body (caller_user c) (caller_roles c) now ;;
      ret (CreatedEnrollment x)
  | DropUserEnrollment user_id section_id =>
      x <- drop_user_enrollment user_id section_id ;;
      ret (AnEnrollment x)
  | DropUserWaitlist user_id section_id =>
      drop_user_waitlist user_id section_id
        (Injected (caller_user c)) (Injected (caller_roles c)) ;;
      ret NoContent
  | DropSectionEnrollment section_id user_id =>
      x <- drop_section_enrollment section_id user_id
             (caller_user c) (caller_roles c) ;;
      ret (AnEnrollment x)
  | DeleteSection section_id =>
      delete_section section_id ;;
      ret NoContent
  end.

Record Call : Type := mkCall {
  call_caller : Caller;
  call_time : Z;
  call_request : Request
}.

(** The store after one call, whether it returned or raised. *)
Definition after (c : Call) (db : DB) : DB :=
  db_of (serve (call_caller c) (call_time c) (call_request c) db).

(** The store after a sequence of calls. *)
Definition run (cs : list Call) (db : DB) : DB :=
  fold_left (fun d c => after c d) cs db.

(** ** Vocabulary of the properties *)

(** [Role.REGISTRAR in jwt_roles or jwt_user == user_id] *)
Definition authorized (jwt_user : Z) (jwt_roles : list Role) (user_id : Z)
  : bool :=
  has_role Registrar jwt_roles || (jwt_user =? user_id).

(** The rows of [sections] that carry a given id. *)
Definition section_rows (db : DB) (sid : Z) : list SectionRow :=
  filter (fun s => s_id s =? sid) (sections db).

(** The rows of a pair in [enrollments], and on [waitlist]. *)
Definition pair_rows (db : DB) (uid sid : Z) : list EnrollmentRow :=
  filter (is_pair uid sid) (enrollments db).

Definition entry_rows (db : DB) (uid sid : Z) : list WaitlistRow :=
  filter (is_entry uid sid) (waitlist db).

(** The number of rows of a section whose status is Enrolled. *)
Definition is_enrolled_in (sid : Z) (e : EnrollmentRow) : bool :=
  in_section sid e && status_eqb (e_status e) Enrolled.

Definition enrolled_count (db : DB) (sid : Z) : Z :=
  Z.of_nat (length (filter (is_enrolled_in sid) (enrollments db))).

(** A row is active when it is Enrolled or Waitlisted. *)
Definition active (e : EnrollmentRow) : bool :=
  negb (status_eqb (e_status e) Dropped).

Definition active_rows (db : DB) (uid sid : Z) : list EnrollmentRow :=
  filter (fun e => is_pair uid sid e && active e) (enrollments db).

(** The positions held on a section's waitlist, in table order. *)
Definition section_positions (db : DB) (sid : Z) : list Z :=
  map w_position (filter (on_section sid) (waitlist db)).

(** A list of positions is exactly {0, ..., k-1} for k its length, each
    position once. *)
Definition contiguous (ps : list Z) : Prop :=
  NoDup ps /\ forall p, In p ps <-> 0 <= p < Z.of_nat (length ps).

(** A sequence of calls in which no join is made for a user who holds, at
    that moment, an entry on the waitlist of the section joined. *)
Fixpoint joins_off_waitlist (cs : list Call) (db : DB) : bool :=
  match cs with
  | [] => true
  | c :: cs' =>
      match call_request c with
      | CreateEnrollment user_id body =>
          match entry_rows db user_id (section body) with
          | [] => true
          | _ :: _ => false
          end
      | _ => true
      end && joins_off_waitlist cs' (after c db)
  end.

(** A sequence of calls in which no join is made for a pair that holds,
    at that moment, an active row. *)
Fixpoint joins_inactive (cs : list Call) (db : DB) : bool :=
  match cs with
  | [] => true
  | c :: cs' =>
      match call_request c with
      | CreateEnrollment user_id body =>
          match active_rows db user_id (section body) with
          | [] => true
          | _ :: _ => false
          end
      | _ => true
      end && joins_inactive cs' (after c db)
  end.

(** What the renumbering after the removal of position [p] does to a
    position of the same section. *)
Definition shift (p q : Z) : Z := if q >? p then q - 1 else q.

Definition entry_key (w : WaitlistRow) : Z * Z :=
  (w_user_id w, w_section_id w).

(** No user holds two entries on one section's waitlist, and the
    positions of every section are contiguous. *)
Definition waitlist_ok (l : list WaitlistRow) : Prop :=
  NoDup (map entry_key l)
  /\ forall sid, contiguous (map w_position (filter (on_section sid) l)).

(** Each pair holds at most one active row. *)
Definition at_most_one_active (db : DB) : Prop :=
  forall uid sid, (length (active_rows db uid sid) <= 1)%nat.

(** A computation respects a relation between the store it starts from
    and the store it ends with, returning or raising. *)
Definition respects (R : DB -> DB -> Prop) {A} (m : M A) : Prop :=
  forall db, R db (db_of (m db)).

Definition same_waitlist (db db' : DB) : Prop :=
  waitlist db' = waitlist db.

Definition no_more_active (db db' : DB) : Prop :=
  forall uid sid,
    (length (active_rows db' uid sid) <= length (active_rows db uid sid))%nat.

(** The row after [drop_user_enrollment] has run once for each user of
    [us], as the first loop of [delete_section] does. *)
Definition dropped_for (us : list Z) (sid : Z) (e : EnrollmentRow)
  : EnrollmentRow :=
  fold_left (fun e' u => set_dropped u sid e') us e.

(** An Enrolled row of the section turned Dropped; any other row as it
    is. *)
Definition set_section_dropped (sid : Z) (e : EnrollmentRow) : EnrollmentRow :=
  if in_section sid e && status_eqb (e_status e) Enrolled
  then mkEnrollment (e_user_id e) (e_section_id e) Dropped (e_grade e) (e_date e)
  else e.


(** An integer that SQLite stores: a signed 64-bit value.  A Python int
    outside this range cannot be bound to a statement ([OverflowError]);
    the handlers are followed here on ids within it. *)
Definition sql_integer (z : Z) : Prop := - 2 ^ 63 <= z < 2 ^ 63.

(** ** Concrete stores used as examples *)

Module Examples.

Definition student (u : Z) : Caller := mkCaller u [Student].

Definition join (u sid : Z) : Call :=
  mkCall (student u) 100
    (CreateEnrollment u (mkCreateEnrollmentRequest sid)).

Definition leave_waitlist (u sid : Z) : Call :=
  mkCall (student u) 100 (DropUserWaitlist u sid).

(** One open section, capacity 1, room for 2 on the waitlist; user 7
    was enrolled in it and has dropped. *)
Definition after_a_drop : DB :=
  mkDB [mkSection 1 1 2 false false 9]
       [mkEnrollment 7 1 Dropped None 50]
       [].

(** Scenario A: capacity 1, waitlist capacity 2, nobody in yet. *)
Definition scenario_a : DB :=
  mkDB [mkSection 1 1 2 false false 9] [] [].

(** One open section without a direct seat and nobody waiting. *)
Definition full_section : DB :=
  mkDB [mkSection 1 0 5 false false 9] [] [].

(** One open section with two free seats. *)
Definition open_section : DB :=
  mkDB [mkSection 1 2 5 false false 9] [] [].

(** Section 1 is full with user 10; user 12 waits at position 0. *)
Definition one_waiting : DB :=
  mkDB [mkSection 1 1 2 false false 9]
       [mkEnrollment 10 1 Enrolled None 50;
        mkEnrollment 12 1 Waitlisted None 60]
       [mkWaitlist 12 1 0 60].

(** Scenario D: users 10 and 11 Enrolled, user 12 Waitlisted. *)
Definition scenario_d : DB :=
  mkDB [mkSection 1 2 2 false false 9]
       [mkEnrollment 10 1 Enrolled None 50;
        mkEnrollment 11 1 Enrolled None 51;
        mkEnrollment 12 1 Waitlisted None 60]
       [mkWaitlist 12 1 0 60].



(** Section 1 is full with user 10; users 12, 13 and 14 wait on it at
    positions 0, 1 and 2, and user 13 also waits on section 2. *)
Definition three_waiting : DB :=
  mkDB [mkSection 1 1 5 false false 9; mkSection 2 0 5 false false 9]
       [mkEnrollment 10 1 Enrolled None 50;
        mkEnrollment 12 1 Waitlisted None 60;
        mkEnrollment 13 1 Waitlisted None 61;
        mkEnrollment 13 2 Waitlisted None 62;
        mkEnrollment 14 1 Waitlisted None 63]
       [mkWaitlist 12 1 0 60; mkWaitlist 13 1 1 61;
        mkWaitlist 13 2 0 62; mkWaitlist 14 1 2 63].

(** A frozen section in which user 10 is enrolled. *)
Definition frozen_section : DB :=
  mkDB [mkSection 1 2 2 true false 9]
       [mkEnrollment 10 1 Enrolled None 50]
       [].

(** A deleted section that still has an Enrolled row and a waitlist
    entry. *)
Definition deleted_section : DB :=
  mkDB [mkSection 1 1 2 false true 9]
       [mkEnrollment 10 1 Enrolled None 50;
        mkEnrollment 12 1 Waitlisted None 60]
       [mkWaitlist 12 1 0 60].

End Examples.

(** ** [update_section] *)

(** [class UpdateSectionRequest(BaseModel)]: every field optional,
    [None] by default. *)
Record UpdateSectionRequest : Type := mkUpdateSectionRequest {
  u_classroom : option string;
  u_capacity : option Z;
  u_waitlist_capacity : option Z;
  u_day : option string;
  u_begin_time : option string;
  u_end_time : option string;
  u_freeze : option bool;
  u_instructor_id : option Z
}.

Definition is_none {A} (o : option A) : bool :=
  match o with None => true | Some _ => false end.

(** [len(v) == 0]: no field of the request is other than [None]. *)
Definition no_fields (r : UpdateSectionRequest) : bool :=
  is_none (u_classroom r) && is_none (u_capacity r)
  && is_none (u_waitlist_capacity r) && is_none (u_day r)
  && is_none (u_begin_time r) && is_none (u_end_time r)
  && is_none (u_freeze r) && is_none (u_instructor_id r).

Definition or_keep {A} (new : option A) (old : A) : A :=
  match new with Some v => v | None => old end.

(** [UPDATE sections SET <key> = :<key>, ... WHERE id = :section_id],
    one assignment per field given.  The columns [classroom], [day],
    [begin_time] and [end_time] are read by none of the handlers of this
    development and are not columns of [SectionRow]; an assignment to one
    of them leaves the columns kept here as they are. *)
Definition apply_update (section_id : Z) (r : UpdateSectionRequest)
  (s : SectionRow) : SectionRow :=
  if s_id s =? section_id
  then mkSection (s_id s)
         (or_keep (u_capacity r) (s_capacity s))
         (or_keep (u_waitlist_capacity r) (s_waitlist_capacity s))
         (or_keep (u_freeze r) (s_freeze s))
         (s_deleted s)
         (or_keep (u_instructor_id r) (s_instructor_id s))
  else s.

Definition update_sections (section_id : Z) (r : UpdateSectionRequest)
  (db : DB) : DB :=
  with_sections db (map (apply_update section_id r) (sections db)).

(** Whether a Python int can be bound as a parameter of a statement: it
    has to fit SQLite's signed 64-bit INTEGER. *)
Definition fits_integer (z : Z) : bool :=
  (- 2 ^ 63 <=? z) && (z <? 2 ^ 63).

Definition fits_integer_opt (o : option Z) : bool :=
  match o with Some z => fits_integer z | None => true end.

(** The parameters bound by the [UPDATE] of [update_section]: the
    integer fields given, and the section id. *)
Definition update_binds (section_id : Z) (r : UpdateSectionRequest) : bool :=
  fits_integer_opt (u_capacity r)
  && fits_integer_opt (u_waitlist_capacity r)
  && fits_integer_opt (u_instructor_id r)
  && fits_integer section_id.

(** [@app.patch("/sections/{section_id}")].  The write sits in a [try]:
    when [write_row] raises, the handler answers 409 with the message of
    the exception and nothing is written.  On tables without declared
    constraints the statement fails when a parameter cannot be bound,
    with [OverflowError("Python int too large to convert to SQLite
    INTEGER")]. *)
Definition update_section (section_id : Z) (section : UpdateSectionRequest)
  : M SectionRow :=
  if no_fields section
  then raise (HTTPException 400 "No fields provided to update.")
  else
    (if update_binds section_id section
     then exec (update_sections section_id section)
     else raise (HTTPException 409
       "Failed to update section:Python int too large to convert to SQLite INTEGER")) ;;
    sections <- query (fun db => list_sections db [section_id]) ;;
    first_item sections.

(** ** Vocabulary of the further properties *)

(** The id and the two capacities of every row of [sections], in table
    order. *)
Definition capacities (db : DB) : list (Z * Z * Z) :=
  map (fun s => (s_id s, s_capacity s, s_waitlist_capacity s)) (sections db).

(** From [db] to [db'] no capacity changes, and no section gains an
    Enrolled row, no waitlist an entry, no user a waitlist entry. *)
Definition shrinks (db db' : DB) : Prop :=
  capacities db' = capacities db
  /\ (forall sid, enrolled_count db' sid <= enrolled_count db sid)
  /\ (forall sid, count_section_waitlist db' sid <= count_section_waitlist db sid)
  /\ (forall uid, count_user_waitlist db' uid <= count_user_waitlist db uid).

(** From [db] to [db'] the waitlist is the same, every enrollment row is
    still there with its user, section, grade and date, the rows of other
    sections are the same, and so are the rows of [sections] with another
    id. *)
Definition touches_only_section (sid : Z) (db db' : DB) : Prop :=
  waitlist db' = waitlist db
  /\ map (fun e => (e_user_id e, e_section_id e, e_grade e, e_date e))
       (enrollments db')
     = map (fun e => (e_user_id e, e_section_id e, e_grade e, e_date e))
         (enrollments db)
  /\ filter (fun e => negb (in_section sid e)) (enrollments db')
     = filter (fun e => negb (in_section sid e)) (enrollments db)
  /\ filter (fun s => negb (s_id s =? sid)) (sections db')
     = filter (fun s => negb (s_id s =? sid)) (sections db).

(** Every integer that an [update_section] binds, the section id and
    the integer fields given, is one that SQLite stores. *)
Definition update_in_range (section_id : Z) (r : UpdateSectionRequest) : Prop :=
  sql_integer section_id
  /\ (forall c, u_capacity r = Some c -> sql_integer c)
  /\ (forall c, u_waitlist_capacity r = Some c -> sql_integer c)
  /\ (forall i, u_instructor_id r = Some i -> sql_integer i).

(** ** [services/authentication/database.py]: choice of the database file *)

Module AuthDatabase.

Definition rw_paths : list string :=
  ["run/authentication/primary/fuse/auth.db"].

Definition ro_paths : list string :=
  ["run/authentication/secondary1/fuse/auth.db";
   "run/authentication/secondary2/fuse/auth.db"].

(** The two module-level counters. *)
Record Globals : Type := mkGlobals {
  ro_path : Z;
  rw_path : Z
}.

(** [ro_path = 0], [rw_path = 0] *)
Definition initial : Globals := mkGlobals 0 0.

(** [l[i]] on a Python list: a negative index counts from the end; out
    of range raises [IndexError]. *)
Definition item {A} (l : list A) (i : Z) : Exn + A :=
  let n := Z.of_nat (length l) in
  let j := if i <? 0 then n + i else i in
  if (0 <=? j) && (j <? n)
  then match nth_error l (Z.to_nat j) with
       | Some x => inr x
       | None => inl IndexError
       end
  else inl IndexError.

(** What [get_db] hands to [internal.database.get_db], which is not
    among the sources: the path chosen and the [read_only] flag. *)
Record Connection : Type := mkConnection {
  db_path : string;
  read_only : bool
}.

(** [def get_db(read_only=False)]: the counter of the kind asked for is
    advanced modulo the number of paths of that kind, then indexes the
    list. *)
Definition get_db (read_only : bool) (g : Globals)
  : (Exn + Connection) * Globals :=
  if read_only
  then
    let ro := (ro_path g + 1) mod Z.of_nat (length ro_paths) in
    let g' := mkGlobals ro (rw_path g) in
    (match item ro_paths ro with
     | inr p => inr (mkConnection p read_only)
     | inl e => inl e
     end, g')
  else
    let rw := (rw_path g + 1) mod Z.of_nat (length rw_paths) in
    let g' := mkGlobals (ro_path g) rw in
    (match item rw_paths rw with
     | inr p => inr (mkConnection p read_only)
     | inl e => inl e
     end, g').

(** [def get_read_db()] *)
Definition get_read_db (g : Globals) : (Exn + Connection) * Globals :=
  get_db true g.

End AuthDatabase.

(** * Properties *)

(** ** Facts on lists and on the monad *)

Section ListFacts.
Context {A : Type}.
Implicit Types (f g : A -> bool) (l : list A).

Lemma filter_refine f g l :
  (forall x, g x = true -> f x = true) ->
  filter g l = filter g (filter f l).
Proof.
  intros Hgf. induction l as [|x l IH]; simpl; [reflexivity|].
  destruct (f x) eqn:Ef; simpl.
  - destruct (g x); [f_equal|]; exact IH.
  - destruct (g x) eqn:Eg; [|exact IH].
    apply Hgf in Eg. congruence.
Qed.

Lemma filter_none_negb f l :
  filter f l = [] -> filter (fun x => negb (f x)) l = l.
Proof.
  induction l as [|x l IH]; simpl; [reflexivity|].
  destruct (f x); simpl; [discriminate|].
  intros H. f_equal. apply IH, H.
Qed.

Lemma filter_length_le f g l :
  (forall x, g x = true -> f x = true) ->
  (length (filter g l) <= length (filter f l))%nat.
Proof.
  intros Hgf. induction l as [|x l IH]; simpl; [lia|].
  destruct (g x) eqn:Eg.
  - rewrite (Hgf _ Eg). simpl. lia.
  - destruct (f x); simpl; lia.
Qed.

Lemma first_item_snoc l (x : A) db :
  first_item (l ++ [x]) db = Ok (hd x l) db.
Proof. destruct l; reflexivity. Qed.

Lemma first_item_nil db : first_item (@nil A) db = Raise IndexError db.
Proof. reflexivity. Qed.
End ListFacts.

Lemma authorized_guard jwt_user jwt_roles user_id :
  negb (has_role Registrar jwt_roles) && negb (jwt_user =? user_id)
  = negb (authorized jwt_user jwt_roles user_id).
Proof. unfold authorized. now rewrite negb_orb. Qed.

(** ** The two queries of [create_enrollment] on a section with one row *)

Lemma select_section_with_space_row db sid sec :
  section_rows db sid = [sec] ->
  select_section_with_space sid db
  = if has_space db sid sec then Some (s_id sec) else None.
Proof.
  unfold select_section_with_space, section_rows. intros H.
  rewrite (filter_refine (fun s => s_id s =? sid)), H.
  - simpl. now destruct (has_space db sid sec).
  - intros x. unfold has_space. now destruct (s_id x =? sid).
Qed.

Lemma select_section_with_waitlist_space_row db sid uid sec :
  section_rows db sid = [sec] ->
  select_section_with_waitlist_space sid uid db
  = if has_waitlist_space db sid uid sec then Some (s_id sec) else None.
Proof.
  unfold select_section_with_waitlist_space, section_rows. intros H.
  rewrite (filter_refine (fun s => s_id s =? sid)), H.
  - simpl. now destruct (has_waitlist_space db sid uid sec).
  - intros x. unfold has_waitlist_space. now destruct (s_id x =? sid).
Qed.

Lemma section_rows_id db sid sec :
  section_rows db sid = [sec] -> s_id sec = sid.
Proof.
  unfold section_rows. intros H.
  assert (Hin : In sec (filter (fun s => s_id s =? sid) (sections db)))
    by (rewrite H; now left).
  apply filter_In in Hin. now apply Z.eqb_eq.
Qed.

Lemma enrolled_count_le db sid :
  enrolled_count db sid <= count_section_enrollments db sid.
Proof.
  unfold enrolled_count, count_section_enrollments.
  apply Nat2Z.inj_le, filter_length_le.
  intros x. unfold is_enrolled_in. now destruct (in_section sid x).
Qed.

Lemma list_enrollments_pair db uid sid :
  list_enrollments db [(uid, sid)] = pair_rows db uid sid.
Proof.
  unfold list_enrollments, pair_rows. apply filter_ext.
  intros e. simpl. now rewrite orb_false_r.
Qed.

Lemma is_pair_new uid sid st g d :
  is_pair uid sid (mkEnrollment uid sid st g d) = true.
Proof. unfold is_pair. simpl. now rewrite !Z.eqb_refl. Qed.

Lemma pair_rows_insert db uid sid st now :
  pair_rows (insert_enrollment uid sid st now db) uid sid
  = pair_rows db uid sid ++ [mkEnrollment uid sid st None now].
Proof.
  unfold pair_rows, insert_enrollment. simpl.
  now rewrite filter_app; simpl; rewrite is_pair_new.
Qed.

(** The direct branch as the code takes it: the count is over all rows
    of the section. *)
Lemma create_enrollment_direct db user_id sid jwt_user jwt_roles now sec :
  authorized jwt_user jwt_roles user_id = true ->
  section_rows db sid = [sec] ->
  s_freeze sec = false ->
  s_deleted sec = false ->
  count_section_enrollments db sid < s_capacity sec ->
  let row := mkEnrollment user_id sid Enrolled None now in
  create_enrollment user_id (mkCreateEnrollmentRequest sid)
    jwt_user jwt_roles now db
  = Ok (mkCreateEnrollmentResponse (hd row (pair_rows db user_id sid)) None)
       (with_enrollments db (enrollments db ++ [row])).
Proof.
  intros Hauth Hrows Hfr Hdel Hcount row.
  unfold create_enrollment.
  rewrite authorized_guard, Hauth. simpl.
  unfold bind at 1, query at 1.
  rewrite (select_section_with_space_row _ _ _ Hrows).
  unfold has_space.
  rewrite (section_rows_id _ _ _ Hrows), Z.eqb_refl, Hfr, Hdel.
  replace (s_capacity sec >? count_section_enrollments db sid) with true
    by (symmetry; apply Z.gtb_lt; lia).
  simpl. unfold bind, exec, ret, query.
  rewrite list_enrollments_pair, pair_rows_insert, first_item_snoc.
  reflexivity.
Qed.

(** C1.  With one Dropped row in a section of capacity 1, no row of the
    section is Enrolled, so its Enrolled count (0) is strictly below its
    capacity; yet the join of user 8 is not enrolled directly: it is put
    on the waitlist at position 0, with a Waitlisted row.  The count that
    the code compares with the capacity is over every row of the
    section, whatever its status. *)
Theorem create_enrollment_counts_every_status :
  let db := Examples.after_a_drop in
  section_rows db 1 = [mkSection 1 1 2 false false 9]
  /\ enrolled_count db 1 = 0
  /\ count_section_enrollments db 1 = 1
  /\ create_enrollment 8 (mkCreateEnrollmentRequest 1) 8 [Student] 100 db
     = Ok (mkCreateEnrollmentResponse
             (mkEnrollment 8 1 Waitlisted None 100) (Some 0))
          (mkDB (sections db)
                (enrollments db ++ [mkEnrollment 8 1 Waitlisted None 100])
                [mkWaitlist 8 1 0 100]).
Proof. repeat split. Qed.






(** Scenario A of the specification: the first user is enrolled, the
    next two are waitlisted at positions 0 and 1, the fourth is turned
    away. *)
Example scenario_a_joins :
  let db3 := run [Examples.join 1 1; Examples.join 2 1; Examples.join 3 1]
               Examples.scenario_a in
  enrollments db3
  = [mkEnrollment 1 1 Enrolled None 100;
     mkEnrollment 2 1 Waitlisted None 100;
     mkEnrollment 3 1 Waitlisted None 100]
  /\ waitlist db3 = [mkWaitlist 2 1 0 100; mkWaitlist 3 1 1 100]
  /\ create_enrollment 4 (mkCreateEnrollmentRequest 1) 4 [Student] 100 db3
     = Raise (HTTPException 400 "Section is full and waitlist is full.") db3.
Proof. repeat split. Qed.

(** ** [drop_user_enrollment] *)

Section FilterMap.
Context {A : Type}.

Lemma filter_map_commute (f : A -> bool) (g : A -> A) l :
  (forall x, f (g x) = f x) ->
  filter f (map g l) = map g (filter f l).
Proof.
  intros H. induction l as [|x l IH]; simpl; [reflexivity|].
  rewrite H. destruct (f x); simpl; now rewrite IH.
Qed.

Lemma map_fixed (f : A -> bool) (g : A -> A) l :
  (forall x, f x = false -> g x = x) ->
  filter f l = [] -> map g l = l.
Proof.
  intros H. induction l as [|x l IH]; simpl; [reflexivity|].
  destruct (f x) eqn:E; [discriminate|].
  intros Hl. now rewrite (H _ E), IH.
Qed.
End FilterMap.

Lemma with_enrollments_same db : with_enrollments db (enrollments db) = db.
Proof. now destruct db. Qed.

Lemma with_waitlist_same db : with_waitlist db (waitlist db) = db.
Proof. now destruct db. Qed.

Lemma set_dropped_keeps_pair uid sid uid' sid' e :
  is_pair uid' sid' (set_dropped uid sid e) = is_pair uid' sid' e.
Proof.
  unfold set_dropped.
  now destruct (is_pair uid sid e && status_eqb (e_status e) Enrolled).
Qed.

Lemma set_dropped_twice uid sid e :
  set_dropped uid sid (set_dropped uid sid e) = set_dropped uid sid e.
Proof.
  unfold set_dropped.
  destruct (is_pair uid sid e && status_eqb (e_status e) Enrolled) eqn:E.
  - simpl. now rewrite andb_false_r.
  - now rewrite E.
Qed.

Lemma set_dropped_not_enrolled uid sid e :
  is_pair uid sid e = true -> e_status (set_dropped uid sid e) <> Enrolled.
Proof.
  unfold set_dropped. intros ->. simpl.
  destruct (e_status e) eqn:E; simpl; rewrite ?E; discriminate.
Qed.

Lemma set_dropped_status uid sid e :
  is_pair uid sid e = true ->
  (e_status e <> Waitlisted -> e_status (set_dropped uid sid e) = Dropped)
  /\ (e_status e = Waitlisted -> set_dropped uid sid e = e).
Proof.
  unfold set_dropped. intros ->. simpl.
  destruct (e_status e) eqn:E; simpl; rewrite ?E; split; congruence.
Qed.

Lemma pair_rows_update_dropped db uid sid uid' sid' :
  pair_rows (update_enrollment_dropped uid sid db) uid' sid'
  = map (set_dropped uid sid) (pair_rows db uid' sid').
Proof.
  unfold pair_rows, update_enrollment_dropped. simpl.
  apply filter_map_commute. intros e. apply set_dropped_keeps_pair.
Qed.

Lemma update_enrollment_dropped_twice db uid sid :
  update_enrollment_dropped uid sid (update_enrollment_dropped uid sid db)
  = update_enrollment_dropped uid sid db.
Proof.
  unfold update_enrollment_dropped, with_enrollments. simpl.
  f_equal. rewrite map_map. apply map_ext. intros e. apply set_dropped_twice.
Qed.

Lemma update_enrollment_dropped_none db uid sid :
  pair_rows db uid sid = [] -> update_enrollment_dropped uid sid db = db.
Proof.
  intros H. unfold update_enrollment_dropped.
  rewrite (map_fixed (is_pair uid sid)); auto using with_enrollments_same.
  intros e He. unfold set_dropped. now rewrite He.
Qed.

Lemma drop_user_enrollment_eq db uid sid :
  drop_user_enrollment uid sid db
  = first_item (map (set_dropped uid sid) (pair_rows db uid sid))
      (update_enrollment_dropped uid sid db).
Proof.
  unfold drop_user_enrollment, bind, exec, query.
  now rewrite list_enrollments_pair, pair_rows_update_dropped.
Qed.

(** C8.  For a pair without any Enrollment row, [drop_user_enrollment]
    does not answer with an HTTP error: indexing the empty list of the
    pair's enrollments raises [IndexError], which no handler catches. *)
Theorem drop_user_enrollment_no_row_raises_index_error db user_id section_id :
  pair_rows db user_id section_id = [] ->
  drop_user_enrollment user_id section_id db = Raise IndexError db.
Proof.
  intros H.
  now rewrite drop_user_enrollment_eq, H, update_enrollment_dropped_none.
Qed.

Lemma drop_user_enrollment_no_row_witness :
  drop_user_enrollment 1 1 Examples.open_section
  = Raise IndexError Examples.open_section.
Proof.
  apply (drop_user_enrollment_no_row_raises_index_error
           Examples.open_section 1 1).
  reflexivity.
Defined.

(** The second of two successive calls finds the store as the first left
    it and answers as the first did. *)
Lemma drop_user_enrollment_repeat db uid sid :
  drop_user_enrollment uid sid (db_of (drop_user_enrollment uid sid db))
  = drop_user_enrollment uid sid db.
Proof.
  rewrite (drop_user_enrollment_eq db).
  assert (Hdb : db_of (first_item (map (set_dropped uid sid) (pair_rows db uid sid))
                  (update_enrollment_dropped uid sid db))
                = update_enrollment_dropped uid sid db)
    by now destruct (map (set_dropped uid sid) (pair_rows db uid sid)).
  rewrite Hdb, drop_user_enrollment_eq, update_enrollment_dropped_twice.
  rewrite pair_rows_update_dropped, map_map.
  f_equal. apply map_ext. intros e. apply set_dropped_twice.
Qed.

(** C9 as stated fails on a pair whose row is Waitlisted: both calls hand
    that row back with its status Waitlisted, not Dropped. *)
Lemma second_drop_of_waitlisted_row_not_dropped :
  ~ (forall db user_id section_id,
       pair_rows db user_id section_id <> [] ->
       let db1 := db_of (drop_user_enrollment user_id section_id db) in
       exists e,
         drop_user_enrollment user_id section_id db1 = Ok e db1
         /\ e_status e = Dropped).
Proof.
  intros H.
  destruct (H Examples.one_waiting 12 1) as [e [He Hst]].
  - vm_compute. discriminate.
  - vm_compute in He. injection He as <-. discriminate Hst.
Qed.

(** C9, amended.  For a pair with an Enrollment row, the first
    [drop_user_enrollment] returns the pair's first row after the update;
    the second call leaves the store exactly as the first left it and
    returns that same row.  The row's status is Dropped unless it was
    Waitlisted, in which case it is returned untouched. *)
Theorem drop_user_enrollment_twice db user_id section_id r rest :
  pair_rows db user_id section_id = r :: rest ->
  let db1 := update_enrollment_dropped user_id section_id db in
  let e := set_dropped user_id section_id r in
  drop_user_enrollment user_id section_id db = Ok e db1
  /\ drop_user_enrollment user_id section_id db1 = Ok e db1
  /\ (e_status r <> Waitlisted -> e_status e = Dropped)
  /\ (e_status r = Waitlisted -> e = r).
Proof.
  intros Hrows db1 e.
  assert (Hfirst : drop_user_enrollment user_id section_id db = Ok e db1)
    by now rewrite drop_user_enrollment_eq, Hrows.
  assert (Hpair : is_pair user_id section_id r = true).
  { assert (Hin : In r (pair_rows db user_id section_id))
      by (rewrite Hrows; now left).
    now apply filter_In in Hin. }
  split; [exact Hfirst|]. split.
  - pose proof (drop_user_enrollment_repeat db user_id section_id) as Hrep.
    now rewrite Hfirst in Hrep.
  - now apply set_dropped_status.
Qed.

Lemma drop_user_enrollment_twice_witness :
  let db1 := update_enrollment_dropped 10 1 Examples.one_waiting in
  let e := mkEnrollment 10 1 Dropped None 50 in
  drop_user_enrollment 10 1 Examples.one_waiting = Ok e db1
  /\ drop_user_enrollment 10 1 db1 = Ok e db1
  /\ e_status e = Dropped.
Proof.
  destruct (drop_user_enrollment_twice Examples.one_waiting 10 1
              (mkEnrollment 10 1 Enrolled None 50) [] eq_refl)
    as [H1 [H2 [H3 _]]].
  intros db1 e.
  split; [exact H1 | split; [exact H2 | apply H3; discriminate]].
Defined.

(** ** [drop_user_waitlist] *)

Lemma drop_user_waitlist_forbidden db uid sid jwt_user jwt_roles :
  authorized jwt_user jwt_roles uid = false ->
  drop_user_waitlist uid sid (Injected jwt_user) (Injected jwt_roles) db
  = Raise (HTTPException 403 "Not authorized") db.
Proof.
  intros H. unfold drop_user_waitlist, not_in_roles, bind, ret. simpl.
  now rewrite authorized_guard, H.
Qed.

Lemma drop_user_waitlist_authorized db uid sid jwt_user jwt_roles :
  authorized jwt_user jwt_roles uid = true ->
  drop_user_waitlist uid sid (Injected jwt_user) (Injected jwt_roles) db
  = match entry_rows db uid sid with
    | [] => Raise (HTTPException 400 "User is not on the waitlist.") db
    | w :: _ =>
        Ok tt
          (mkDB (sections db)
             (filter (fun e => negb (is_waitlisted_pair uid sid e))
                (enrollments db))
             (map (decrement sid (w_position w))
                (filter (fun x => negb (is_entry uid sid x)) (waitlist db))))
    end.
Proof.
  intros H. unfold drop_user_waitlist, not_in_roles, bind, ret. simpl.
  rewrite authorized_guard, H. simpl.
  unfold exec_returning, delete_waitlist_returning_position.
  fold (entry_rows db uid sid).
  destruct (entry_rows db uid sid) as [|w rest] eqn:E; simpl.
  - unfold raise. f_equal.
    unfold entry_rows in E.
    now rewrite (filter_none_negb _ _ E), with_waitlist_same.
  - reflexivity.
Qed.

Lemma drop_user_waitlist_marker db uid sid jwt_user :
  drop_user_waitlist uid sid jwt_user DependsMarker db = Raise TypeError db.
Proof. reflexivity. Qed.

(** C5 as stated fails: user 12 waits on section 1 with a Waitlisted
    row; after [drop_user_waitlist] no row of the pair is left in
    [enrollments], neither Waitlisted nor Dropped. *)
Lemma drop_user_waitlist_removes_enrollment_row :
  let db := Examples.one_waiting in
  let db' :=
    db_of (drop_user_waitlist 12 1 (Injected 12) (Injected [Student]) db) in
  entry_rows db 12 1 = [mkWaitlist 12 1 0 60]
  /\ pair_rows db 12 1 = [mkEnrollment 12 1 Waitlisted None 60]
  /\ drop_user_waitlist 12 1 (Injected 12) (Injected [Student]) db = Ok tt db'
  /\ pair_rows db' 12 1 = []
  /\ ~ (exists e, In e (enrollments db')
                  /\ is_pair 12 1 e = true /\ e_status e = Dropped).
Proof.
  repeat split.
  intros [e [Hin [Hp Hs]]]. vm_compute in Hin.
  destruct Hin as [<-|[]]. discriminate Hp.
Qed.

(** ** Frozen and deleted sections *)

Lemma drop_user_enrollment_sections db uid sid secs :
  drop_user_enrollment uid sid (with_sections db secs)
  = res_map_db (fun d => with_sections d secs) (drop_user_enrollment uid sid db).
Proof.
  rewrite !drop_user_enrollment_eq.
  change (pair_rows (with_sections db secs) uid sid) with (pair_rows db uid sid).
  now destruct (map (set_dropped uid sid) (pair_rows db uid sid)).
Qed.

Lemma drop_user_waitlist_sections db uid sid jwt_user jwt_roles secs :
  drop_user_waitlist uid sid jwt_user jwt_roles (with_sections db secs)
  = res_map_db (fun d => with_sections d secs)
      (drop_user_waitlist uid sid jwt_user jwt_roles db).
Proof.
  unfold drop_user_waitlist, not_in_roles, bind, ret, raise.
  destruct jwt_roles as [roles|]; [|reflexivity].
  destruct (negb (has_role Registrar roles) && dep_neqb jwt_user uid);
    [reflexivity|].
  unfold exec_returning, delete_waitlist_returning_position. simpl.
  now destruct (hd_error (map w_position (filter (is_entry uid sid) (waitlist db)))).
Qed.

(** C6 as stated fails: a drop succeeds against a frozen section, and a
    drop rewrites the rows of a deleted section. *)
Lemma drops_reach_frozen_and_deleted_sections :
  section_rows Examples.frozen_section 1 = [mkSection 1 2 2 true false 9]
  /\ drop_user_enrollment 10 1 Examples.frozen_section
     = Ok (mkEnrollment 10 1 Dropped None 50)
          (mkDB (sections Examples.frozen_section)
                [mkEnrollment 10 1 Dropped None 50] [])
  /\ section_rows Examples.deleted_section 1 = [mkSection 1 1 2 false true 9]
  /\ drop_user_waitlist 12 1 (Injected 12) (Injected [Student])
       Examples.deleted_section
     = Ok tt (mkDB (sections Examples.deleted_section)
                [mkEnrollment 10 1 Enrolled None 50] [])
  /\ drop_user_enrollment 10 1 Examples.deleted_section
     = Ok (mkEnrollment 10 1 Dropped None 50)
          (mkDB (sections Examples.deleted_section)
                [mkEnrollment 10 1 Dropped None 50;
                 mkEnrollment 12 1 Waitlisted None 60]
                [mkWaitlist 12 1 0 60]).
Proof. repeat split. Qed.

(** C6, amended.  Against a section that is frozen or deleted no join
    succeeds and none writes: [create_enrollment] raises (403 for a
    caller who may not act for the user, 400 otherwise) and the store is
    as before.  The two drops never look at the [sections] table: on any
    other content of that table, frozen or deleted flags included, they
    return the same value and leave the same [enrollments] and
    [waitlist]. *)
Theorem frozen_or_deleted_section_rejects_joins
  db user_id sid jwt_user jwt_roles now sec :
  section_rows db sid = [sec] ->
  s_freeze sec = true \/ s_deleted sec = true ->
  create_enrollment user_id (mkCreateEnrollmentRequest sid)
    jwt_user jwt_roles now db
  = Raise (if authorized jwt_user jwt_roles user_id
           then HTTPException 400 "Section is full and waitlist is full."
           else HTTPException 403 "Not authorized") db
  /\ (forall secs,
        drop_user_enrollment user_id sid (with_sections db secs)
        = res_map_db (fun d => with_sections d secs)
            (drop_user_enrollment user_id sid db))
  /\ (forall secs ju jr,
        drop_user_waitlist user_id sid ju jr (with_sections db secs)
        = res_map_db (fun d => with_sections d secs)
            (drop_user_waitlist user_id sid ju jr db)).
Proof.
  intros Hrows Hflag.
  split; [|split; intros;
           [apply drop_user_enrollment_sections
           |apply drop_user_waitlist_sections]].
  unfold create_enrollment. rewrite authorized_guard.
  destruct (authorized jwt_user jwt_roles user_id); [|reflexivity].
  simpl. unfold bind at 1, query at 1.
  rewrite (select_section_with_space_row _ _ _ Hrows).
  replace (has_space db sid sec) with false
    by (unfold has_space;
        destruct Hflag as [-> | ->]; now rewrite ?andb_false_r).
  unfold bind at 1 2, query at 1.
  rewrite (select_section_with_waitlist_space_row _ _ _ _ Hrows).
  replace (has_waitlist_space db sid user_id sec) with false
    by (unfold has_waitlist_space;
        destruct Hflag as [-> | ->]; now rewrite ?andb_false_r).
  reflexivity.
Qed.

Lemma frozen_or_deleted_section_rejects_joins_witness :
  create_enrollment 11 (mkCreateEnrollmentRequest 1) 11 [Student] 100
    Examples.frozen_section
  = Raise (HTTPException 400 "Section is full and waitlist is full.")
      Examples.frozen_section.
Proof.
  apply (frozen_or_deleted_section_rejects_joins Examples.frozen_section
           11 1 11 [Student] 100 (mkSection 1 2 2 true false 9)).
  - reflexivity.
  - left. reflexivity.
Defined.

(** ** Who may drop *)

Lemma drop_section_enrollment_unauthorized db sid uid jwt_user jwt_roles :
  authorized jwt_user jwt_roles uid = false ->
  select_instructor_id sid db <> Some jwt_user ->
  exists code detail,
    drop_section_enrollment sid uid jwt_user jwt_roles db
    = Raise (HTTPException code detail) db.
Proof.
  intros Hauth Hinstr. unfold drop_section_enrollment.
  rewrite authorized_guard, Hauth. simpl.
  unfold bind at 1 2, query at 1.
  destruct (select_instructor_id sid db) as [i|];
    [|do 2 eexists; reflexivity].
  destruct (i =? jwt_user) eqn:E; [|do 2 eexists; reflexivity].
  apply Z.eqb_eq in E. congruence.
Qed.

Lemma no_enrolled_after_update db uid sid :
  Forall (fun e => e_status e <> Enrolled)
    (pair_rows (update_enrollment_dropped uid sid db) uid sid).
Proof.
  rewrite pair_rows_update_dropped. apply Forall_forall.
  intros e He. apply in_map_iff in He as [r [<- Hr]].
  apply set_dropped_not_enrolled.
  now apply filter_In in Hr.
Qed.

Lemma db_of_drop_user_enrollment db uid sid :
  db_of (drop_user_enrollment uid sid db) = update_enrollment_dropped uid sid db.
Proof.
  rewrite drop_user_enrollment_eq.
  now destruct (map (set_dropped uid sid) (pair_rows db uid sid)).
Qed.

(** C10.  Served for two callers [c1] and [c2] (at any two times), a
    [drop_user_enrollment] request for the same user and section gives
    the same outcome, value and store: the handler is injected with no
    identity.  Whoever calls, the store afterwards is the one in which
    the pair's Enrolled rows are Dropped, so no row of the pair is
    Enrolled.  The same caller, when neither a registrar nor the user,
    is turned away with 403 by [drop_user_waitlist], and by
    [drop_section_enrollment] with an HTTP error unless the caller is the
    section's instructor. *)
Theorem drop_user_enrollment_ignores_caller
  c1 c2 t1 t2 user_id section_id db :
  serve c1 t1 (DropUserEnrollment user_id section_id) db
  = serve c2 t2 (DropUserEnrollment user_id section_id) db
  /\ after (mkCall c1 t1 (DropUserEnrollment user_id section_id)) db
     = update_enrollment_dropped user_id section_id db
  /\ Forall (fun e => e_status e <> Enrolled)
       (pair_rows
          (after (mkCall c1 t1 (DropUserEnrollment user_id section_id)) db)
          user_id section_id)
  /\ (authorized (caller_user c1) (caller_roles c1) user_id = false ->
      serve c1 t1 (DropUserWaitlist user_id section_id) db
      = Raise (HTTPException 403 "Not authorized") db
      /\ (select_instructor_id section_id db <> Some (caller_user c1) ->
          exists code detail,
            serve c1 t1 (DropSectionEnrollment section_id user_id) db
            = Raise (HTTPException code detail) db)).
Proof.
  assert (Hafter :
    after (mkCall c1 t1 (DropUserEnrollment user_id section_id)) db
    = update_enrollment_dropped user_id section_id db).
  { unfold after. simpl. unfold bind.
    rewrite <- db_of_drop_user_enrollment.
    now destruct (drop_user_enrollment user_id section_id db). }
  split; [reflexivity|]. split; [exact Hafter|]. split.
  - rewrite Hafter. apply no_enrolled_after_update.
  - intros Hauth. split.
    + simpl. unfold bind.
      now rewrite drop_user_waitlist_forbidden.
    + intros Hinstr. simpl. unfold bind.
      destruct (drop_section_enrollment_unauthorized db section_id user_id
                  _ _ Hauth Hinstr) as [code [detail ->]].
      do 2 eexists; reflexivity.
Qed.

Lemma drop_user_enrollment_ignores_caller_witness :
  let stranger := Examples.student 99 in
  let registrar := mkCaller 1 [Registrar] in
  let db := Examples.one_waiting in
  serve stranger 100 (DropUserEnrollment 10 1) db
  = serve registrar 200 (DropUserEnrollment 10 1) db
  /\ serve stranger 100 (DropUserEnrollment 10 1) db
     = Ok (AnEnrollment (mkEnrollment 10 1 Dropped None 50))
          (update_enrollment_dropped 10 1 db)
  /\ serve stranger 100 (DropUserWaitlist 10 1) db
     = Raise (HTTPException 403 "Not authorized") db
  /\ exists code detail,
       serve stranger 100 (DropSectionEnrollment 1 10) db
       = Raise (HTTPException code detail) db.
Proof.
  intros stranger registrar db.
  destruct (drop_user_enrollment_ignores_caller
              stranger registrar 100 200 10 1 db) as [H1 [_ [_ H4]]].
  destruct (H4 eq_refl) as [H5 H6].
  split; [exact H1|]. split; [reflexivity|]. split; [exact H5|].
  apply H6. vm_compute. discriminate.
Defined.

(** ** Relations that every step of a handler respects *)

Section Respects.
Variable R : DB -> DB -> Prop.
Hypothesis R_refl : forall db, R db db.
Hypothesis R_trans : forall a b c, R a b -> R b c -> R a c.

Lemma respects_ret {A} (a : A) : respects R (ret a).
Proof. intros db. apply R_refl. Qed.

Lemma respects_raise {A} e : respects R (@raise A e).
Proof. intros db. apply R_refl. Qed.

Lemma respects_query {A} (q : DB -> A) : respects R (query q).
Proof. intros db. apply R_refl. Qed.

Lemma respects_first_item {A} (l : list A) : respects R (first_item l).
Proof. destruct l; [apply respects_raise | apply respects_ret]. Qed.

Lemma respects_exec w : (forall db, R db (w db)) -> respects R (exec w).
Proof. intros H db. apply H. Qed.

Lemma respects_bind {A B} (m : M A) (k : A -> M B) :
  respects R m -> (forall a, respects R (k a)) -> respects R (bind m k).
Proof.
  intros Hm Hk db. unfold bind.
  specialize (Hm db). destruct (m db) as [a db'|e db']; simpl in *.
  - eapply R_trans; [exact Hm | apply Hk].
  - exact Hm.
Qed.

Lemma respects_for_each {A} (xs : list A) (body : A -> M unit) :
  (forall x, respects R (body x)) -> respects R (for_each xs body).
Proof.
  intros H. induction xs as [|x xs IH]; simpl.
  - apply respects_ret.
  - apply respects_bind; [apply H | intros _; exact IH].
Qed.

Hypothesis R_dropped :
  forall uid sid db, R db (update_enrollment_dropped uid sid db).
Hypothesis R_deleted :
  forall sid db, R db (update_section_deleted sid db).

Lemma respects_drop_user_enrollment uid sid :
  respects R (drop_user_enrollment uid sid).
Proof.
  unfold drop_user_enrollment.
  apply respects_bind; [apply respects_exec, R_dropped|]. intros _.
  apply respects_bind; [apply respects_query|]. intros l.
  apply respects_first_item.
Qed.

Lemma respects_drop_section_enrollment sid uid jwt_user jwt_roles :
  respects R (drop_section_enrollment sid uid jwt_user jwt_roles).
Proof.
  unfold drop_section_enrollment.
  apply respects_bind; [|intros _; apply respects_drop_user_enrollment].
  destruct (negb (has_role Registrar jwt_roles) && negb (jwt_user =? uid));
    [|apply respects_ret].
  apply respects_bind; [apply respects_query|].
  intros [i|]; [|apply respects_raise].
  destruct (negb (i =? jwt_user)); [apply respects_raise | apply respects_ret].
Qed.

Lemma respects_delete_section sid : respects R (delete_section sid).
Proof.
  unfold delete_section, get_section.
  apply respects_bind.
  { apply respects_bind; [apply respects_query|].
    intros [|s l]; [apply respects_raise | apply respects_ret]. }
  intros _. apply respects_bind; [apply respects_exec, R_deleted|].
  intros _. apply respects_bind; [apply respects_query|].
  intros ue. apply respects_bind.
  { apply respects_for_each. intros u.
    apply respects_bind; [apply respects_drop_user_enrollment|].
    intros _. apply respects_ret. }
  intros _. apply respects_bind; [apply respects_query|].
  intros uw. apply respects_for_each. intros u db.
  rewrite drop_user_waitlist_marker. apply R_refl.
Qed.
End Respects.

Lemma db_of_bind_ret {A B} (m : M A) (f : A -> B) db :
  db_of (bind m (fun x => ret (f x)) db) = db_of (m db).
Proof. unfold bind. now destruct (m db). Qed.

(** The three ways a join can end. *)
Lemma create_enrollment_cases uid body jwt_user jwt_roles now db :
  let sid := section body in
  let r := create_enrollment uid body jwt_user jwt_roles now db in
  (exists e, r = Raise e db)
  \/ (exists x, r = Ok x (insert_enrollment uid sid Enrolled now db))
  \/ (exists x,
        r = Ok x (insert_enrollment uid sid Waitlisted now
                    (with_waitlist db
                       (waitlist db ++
                        [mkWaitlist uid sid (count_section_waitlist db sid) now])))).
Proof.
  intros sid r. subst sid.
  assert (Hr : r = create_enrollment uid body jwt_user jwt_roles now db)
    by reflexivity.
  clearbody r. unfold create_enrollment in Hr.
  destruct (negb (has_role Registrar jwt_roles) && negb (jwt_user =? uid));
    [left; eexists; exact Hr|].
  simpl in Hr. unfold bind at 1, query at 1 in Hr.
  destruct (select_section_with_space (section body) db).
  - right; left. unfold bind, exec, ret, query in Hr.
    rewrite list_enrollments_pair, pair_rows_insert, first_item_snoc in Hr.
    eexists; exact Hr.
  - unfold bind at 1 2, query at 1 in Hr.
    destruct (select_section_with_waitlist_space (section body) uid db).
    + right; right.
      unfold bind, exec_returning, exec, ret, query in Hr. simpl in Hr.
      rewrite list_enrollments_pair, pair_rows_insert, first_item_snoc in Hr.
      eexists; exact Hr.
    + left; eexists; exact Hr.
Qed.

(** ** Contiguity of waitlist positions *)

Lemma contiguous_nil : contiguous [].
Proof.
  split; [constructor|]. intros p. simpl. lia.
Qed.

(** Appending at position = current count. *)
Lemma contiguous_snoc ps :
  contiguous ps -> contiguous (ps ++ [Z.of_nat (length ps)]).
Proof.
  intros [Hnd Hin]. split.
  - apply NoDup_app; [exact Hnd | repeat constructor; simpl; tauto |].
    intros a Ha [<-|[]]. apply Hin in Ha. lia.
  - intros q. rewrite in_app_iff, length_app, Hin. simpl. lia.
Qed.

(** Removing one position and moving the later ones down. *)
Lemma contiguous_compact ps1 p ps2 :
  contiguous (ps1 ++ p :: ps2) -> contiguous (map (shift p) (ps1 ++ ps2)).
Proof.
  intros [Hnd Hin].
  pose proof (NoDup_remove_1 _ _ _ Hnd) as Hnd'.
  pose proof (NoDup_remove_2 _ _ _ Hnd) as Hp.
  assert (Hlen : Z.of_nat (length (ps1 ++ p :: ps2))
                 = Z.of_nat (length (ps1 ++ ps2)) + 1)
    by (rewrite !length_app; simpl; lia).
  assert (Hmem : forall q, In q (ps1 ++ ps2) <->
            (0 <= q < Z.of_nat (length (ps1 ++ ps2)) + 1 /\ q <> p)).
  { intros q. rewrite <- Hlen, <- Hin. split.
    - intros H. split.
      + apply in_app_iff in H. apply in_app_iff. simpl. tauto.
      + intros ->. exact (Hp H).
    - intros [H Hne]. apply in_app_iff in H. apply in_app_iff.
      simpl in H. destruct H as [H|[H|H]]; try tauto.
      exfalso. apply Hne. now symmetry. }
  assert (Hrange : 0 <= p < Z.of_nat (length (ps1 ++ ps2)) + 1).
  { rewrite <- Hlen. apply Hin, in_app_iff. right. now left. }
  split.
  - apply NoDup_map_NoDup_ForallPairs; [|exact Hnd'].
    intros a b Ha Hb. apply Hmem in Ha, Hb. unfold shift.
    destruct (Z.gtb_spec a p), (Z.gtb_spec b p); lia.
  - intros q. rewrite length_map, in_map_iff. split.
    + intros [a [<- Ha]]. apply Hmem in Ha. unfold shift.
      destruct (Z.gtb_spec a p); lia.
    + intros Hq. destruct (Z_lt_le_dec q p).
      * exists q. split; [|apply Hmem; lia].
        unfold shift. destruct (Z.gtb_spec q p); lia.
      * exists (q + 1). split; [|apply Hmem; lia].
        unfold shift. destruct (Z.gtb_spec (q + 1) p); lia.
Qed.

Lemma is_entry_key uid sid w :
  is_entry uid sid w = true <-> entry_key w = (uid, sid).
Proof.
  unfold is_entry, entry_key.
  rewrite andb_true_iff, !Z.eqb_eq.
  split; [intros [-> ->]; reflexivity | intros H; now injection H].
Qed.

Lemma decrement_key sid p w : entry_key (decrement sid p w) = entry_key w.
Proof.
  unfold decrement. now destruct (on_section sid w && (w_position w >? p)).
Qed.

Lemma decrement_section sid sid' p w :
  on_section sid' (decrement sid p w) = on_section sid' w.
Proof.
  unfold decrement. now destruct (on_section sid w && (w_position w >? p)).
Qed.

Lemma no_entry_not_in l uid sid :
  filter (is_entry uid sid) l = [] <-> ~ In (uid, sid) (map entry_key l).
Proof.
  induction l as [|x l IH]; simpl; [tauto|].
  destruct (is_entry uid sid x) eqn:E.
  - apply is_entry_key in E. split; [discriminate|]. intros H. tauto.
  - rewrite IH. split; [|tauto].
    intros H [Hx|Hx]; [|tauto].
    apply is_entry_key in Hx. congruence.
Qed.

(** With one entry per (user, section), the entry found sits between two
    stretches of the table that hold none for that pair. *)
Lemma entry_split l uid sid w rest :
  NoDup (map entry_key l) ->
  filter (is_entry uid sid) l = w :: rest ->
  exists l1 l2,
    l = l1 ++ w :: l2
    /\ filter (is_entry uid sid) l1 = []
    /\ filter (is_entry uid sid) l2 = [].
Proof.
  induction l as [|x l IH]; simpl; [discriminate|].
  intros Hnd Hf. inversion Hnd as [|? ? Hx Hnd']; subst.
  destruct (is_entry uid sid x) eqn:E.
  - injection Hf as -> _. exists [], l. repeat split.
    apply no_entry_not_in. apply is_entry_key in E. now rewrite <- E.
  - destruct (IH Hnd' Hf) as [l1 [l2 [-> [H1 H2]]]].
    exists (x :: l1), l2. simpl. now rewrite E.
Qed.

Lemma positions_after_decrement sid p l :
  map w_position (filter (on_section sid) (map (decrement sid p) l))
  = map (shift p) (map w_position (filter (on_section sid) l)).
Proof.
  induction l as [|x l IH]; simpl; [reflexivity|].
  rewrite decrement_section.
  destruct (on_section sid x) eqn:E; simpl; [|exact IH].
  rewrite IH. f_equal. unfold decrement, shift. rewrite E. simpl.
  now destruct (w_position x >? p).
Qed.

Lemma other_section_after_removal uid sid sid' p l :
  sid' <> sid ->
  map w_position
    (filter (on_section sid')
       (map (decrement sid p)
          (filter (fun x => negb (is_entry uid sid x)) l)))
  = map w_position (filter (on_section sid') l).
Proof.
  intros Hne. induction l as [|x l IH]; simpl; [reflexivity|].
  unfold is_entry at 1, on_section at 2.
  destruct (w_section_id x =? sid') eqn:E'.
  - apply Z.eqb_eq in E'.
    replace (w_section_id x =? sid) with false
      by (symmetry; apply Z.eqb_neq; congruence).
    rewrite andb_false_r. simpl. rewrite decrement_section.
    unfold on_section at 1. replace (w_section_id x =? sid') with true
      by (symmetry; now apply Z.eqb_eq).
    simpl. rewrite IH. f_equal. unfold decrement, on_section.
    replace (w_section_id x =? sid) with false
      by (symmetry; apply Z.eqb_neq; congruence).
    reflexivity.
  - destruct ((w_user_id x =? uid) && (w_section_id x =? sid)); simpl;
      [exact IH|].
    rewrite decrement_section. unfold on_section at 1. rewrite E'. exact IH.
Qed.

Lemma NoDup_keys_filter (f : WaitlistRow -> bool) l :
  NoDup (map entry_key l) -> NoDup (map entry_key (filter f l)).
Proof.
  induction l as [|x l IH]; simpl; [auto|].
  intros Hnd. inversion Hnd as [|? ? Hx Hnd']; subst.
  destruct (f x); simpl; [|auto].
  constructor; [|auto].
  intros Hin. apply Hx. apply in_map_iff in Hin as [y [Hy Hin]].
  apply filter_In in Hin as [Hin _]. rewrite <- Hy. now apply in_map.
Qed.

(** An append by a user who holds no entry on that section. *)
Lemma waitlist_ok_append l uid sid now :
  waitlist_ok l ->
  filter (is_entry uid sid) l = [] ->
  waitlist_ok
    (l ++ [mkWaitlist uid sid
             (Z.of_nat (length (filter (on_section sid) l))) now]).
Proof.
  intros [Hnd Hc] Hfresh. split.
  - rewrite map_app. simpl. apply NoDup_app; [exact Hnd | |].
    + repeat constructor. simpl. tauto.
    + intros a Ha [<-|[]]. now apply no_entry_not_in in Hfresh.
  - intros sid'. rewrite filter_app, map_app. simpl.
    unfold on_section at 2. simpl.
    destruct (sid =? sid') eqn:E; simpl.
    + apply Z.eqb_eq in E. subst sid'.
      rewrite <- (length_map w_position). apply contiguous_snoc, Hc.
    + rewrite app_nil_r. apply Hc.
Qed.

(** The removal of a user's entry with the renumbering behind it. *)
Lemma waitlist_ok_remove l uid sid w rest :
  waitlist_ok l ->
  filter (is_entry uid sid) l = w :: rest ->
  waitlist_ok
    (map (decrement sid (w_position w))
       (filter (fun x => negb (is_entry uid sid x)) l)).
Proof.
  intros [Hnd Hc] Hf. split.
  - rewrite map_map.
    rewrite (map_ext _ entry_key) by (intros x; apply decrement_key).
    now apply NoDup_keys_filter.
  - intros sid'. destruct (Z.eq_dec sid' sid) as [->|Hne];
      [|rewrite other_section_after_removal by exact Hne; apply Hc].
    destruct (entry_split _ _ _ _ _ Hnd Hf) as [l1 [l2 [-> [H1 H2]]]].
    assert (Hw : is_entry uid sid w = true).
    { assert (Hin : In w (filter (is_entry uid sid) (l1 ++ w :: l2)))
        by (rewrite Hf; now left).
      now apply filter_In in Hin. }
    assert (Hs : on_section sid w = true).
    { unfold is_entry in Hw. apply andb_true_iff in Hw. apply Hw. }
    rewrite positions_after_decrement.
    rewrite filter_app. simpl. rewrite Hw. simpl.
    rewrite (filter_none_negb _ _ H1), (filter_none_negb _ _ H2).
    rewrite filter_app, map_app.
    specialize (Hc sid). rewrite filter_app, map_app in Hc.
    simpl in Hc. rewrite Hs in Hc. simpl in Hc.
    now apply contiguous_compact.
Qed.

Lemma same_waitlist_refl db : same_waitlist db db.
Proof. reflexivity. Qed.

Lemma same_waitlist_trans a b c :
  same_waitlist a b -> same_waitlist b c -> same_waitlist a c.
Proof. unfold same_waitlist. congruence. Qed.

(** What one call can do to the waitlist table. *)
Lemma after_waitlist_cases c db :
  waitlist (after c db) = waitlist db
  \/ (exists uid body now,
        call_request c = CreateEnrollment uid body
        /\ waitlist (after c db)
           = waitlist db ++
             [mkWaitlist uid (section body)
                (count_section_waitlist db (section body)) now])
  \/ (exists uid sid w rest,
        entry_rows db uid sid = w :: rest
        /\ waitlist (after c db)
           = map (decrement sid (w_position w))
               (filter (fun x => negb (is_entry uid sid x)) (waitlist db))).
Proof.
  destruct c as [cl t rq]. unfold after. simpl.
  destruct rq as [uid body|uid sid|uid sid|sid uid|sid]; simpl.
  - rewrite db_of_bind_ret.
    destruct (create_enrollment_cases uid body (caller_user cl)
                (caller_roles cl) t db) as [[e H]|[[x H]|[x H]]];
      rewrite H; simpl; [now left | now left |].
    right; left. now exists uid, body, t.
  - left. rewrite db_of_bind_ret. now rewrite db_of_drop_user_enrollment.
  - rewrite (db_of_bind_ret _ (fun _ => NoContent)).
    destruct (authorized (caller_user cl) (caller_roles cl) uid) eqn:Hauth.
    + rewrite drop_user_waitlist_authorized by exact Hauth.
      destruct (entry_rows db uid sid) as [|w rest] eqn:E; [now left|].
      right; right. now exists uid, sid, w, rest.
    + left. now rewrite drop_user_waitlist_forbidden.
  - left. rewrite db_of_bind_ret.
    apply (respects_drop_section_enrollment same_waitlist
             same_waitlist_refl same_waitlist_trans); reflexivity.
  - left. rewrite (db_of_bind_ret _ (fun _ => NoContent)).
    apply (respects_delete_section same_waitlist
             same_waitlist_refl same_waitlist_trans); reflexivity.
Qed.

Lemma waitlist_ok_run cs : forall db,
  waitlist_ok (waitlist db) ->
  joins_off_waitlist cs db = true ->
  waitlist_ok (waitlist (run cs db)).
Proof.
  induction cs as [|c cs IH]; intros db Hok Hfresh; [exact Hok|].
  simpl in Hfresh. apply andb_true_iff in Hfresh as [Hc Hcs].
  change (run (c :: cs) db) with (run cs (after c db)).
  apply IH; [|exact Hcs].
  destruct (after_waitlist_cases c db)
    as [->|[[uid [body [now [Hrq ->]]]]|[uid [sid [w [rest [He ->]]]]]]].
  - exact Hok.
  - rewrite Hrq in Hc.
    apply waitlist_ok_append; [exact Hok|].
    fold (entry_rows db uid (section body)).
    now destruct (entry_rows db uid (section body)).
  - now apply waitlist_ok_remove with (rest := rest).
Qed.


(** Where contiguity does hold.  Start from an empty waitlist and serve
    any sequence of calls (joins, the three drops, section deletions) in
    which no join is made for a user who at that moment holds an entry on
    the waitlist of the section joined.  Then for every section the
    positions of its waitlist entries are exactly 0, ..., k-1 for k their
    number, each once. *)
Theorem waitlist_positions_contiguous cs db sid :
  waitlist db = [] ->
  joins_off_waitlist cs db = true ->
  contiguous (section_positions (run cs db) sid).
Proof.
  intros Hempty Hfresh.
  apply (waitlist_ok_run cs db); [|exact Hfresh].
  rewrite Hempty. split; [constructor|]. intros s. apply contiguous_nil.
Qed.

Lemma waitlist_positions_contiguous_witness :
  contiguous
    (section_positions
       (run [Examples.join 1 1; Examples.join 2 1; Examples.join 3 1;
             Examples.leave_waitlist 1 1]
          Examples.full_section) 1).
Proof.
  apply (waitlist_positions_contiguous
           [Examples.join 1 1; Examples.join 2 1; Examples.join 3 1;
            Examples.leave_waitlist 1 1]
           Examples.full_section 1); reflexivity.
Defined.

(** ** Active rows of a pair *)

Lemma filter_map_length_le {A} (f : A -> bool) (g : A -> A) l :
  (forall x, f (g x) = true -> f x = true) ->
  (length (filter f (map g l)) <= length (filter f l))%nat.
Proof.
  intros H. induction l as [|x l IH]; simpl; [lia|].
  destruct (f (g x)) eqn:E.
  - rewrite (H _ E). simpl. lia.
  - destruct (f x); simpl; lia.
Qed.

Lemma filter_filter_length_le {A} (f g : A -> bool) l :
  (length (filter f (filter g l)) <= length (filter f l))%nat.
Proof.
  induction l as [|x l IH]; simpl; [lia|].
  destruct (g x); simpl; destruct (f x); simpl; lia.
Qed.

Lemma no_more_active_refl db : no_more_active db db.
Proof. intros u s. lia. Qed.

Lemma no_more_active_trans a b c :
  no_more_active a b -> no_more_active b c -> no_more_active a c.
Proof. intros H1 H2 u s. specialize (H1 u s). specialize (H2 u s). lia. Qed.

Lemma no_more_active_dropped uid sid db :
  no_more_active db (update_enrollment_dropped uid sid db).
Proof.
  intros u s. unfold active_rows, update_enrollment_dropped. simpl.
  apply filter_map_length_le. intros e.
  rewrite set_dropped_keeps_pair. unfold set_dropped, active.
  destruct (is_pair uid sid e && status_eqb (e_status e) Enrolled); simpl;
    [|auto].
  now rewrite andb_false_r.
Qed.

Lemma no_more_active_deleted sid db :
  no_more_active db (update_section_deleted sid db).
Proof. intros u s. unfold active_rows. simpl. lia. Qed.

(** What one call can do to the active rows. *)
Lemma after_active_cases c db :
  no_more_active db (after c db)
  \/ (exists uid body st now,
        call_request c = CreateEnrollment uid body
        /\ enrollments (after c db)
           = enrollments db ++ [mkEnrollment uid (section body) st None now]).
Proof.
  destruct c as [cl t rq]. unfold after. simpl.
  destruct rq as [uid body|uid sid|uid sid|sid uid|sid]; simpl.
  - rewrite db_of_bind_ret.
    destruct (create_enrollment_cases uid body (caller_user cl)
                (caller_roles cl) t db) as [[e H]|[[x H]|[x H]]];
      rewrite H; simpl.
    + left. apply no_more_active_refl.
    + right. now exists uid, body, Enrolled, t.
    + right. now exists uid, body, Waitlisted, t.
  - left. rewrite db_of_bind_ret, db_of_drop_user_enrollment.
    apply no_more_active_dropped.
  - left. rewrite (db_of_bind_ret _ (fun _ => NoContent)).
    destruct (authorized (caller_user cl) (caller_roles cl) uid) eqn:Hauth.
    + rewrite drop_user_waitlist_authorized by exact Hauth.
      destruct (entry_rows db uid sid) as [|w rest];
        [apply no_more_active_refl|].
      intros u s. unfold active_rows. simpl. apply filter_filter_length_le.
    + rewrite drop_user_waitlist_forbidden by exact Hauth.
      apply no_more_active_refl.
  - left. rewrite db_of_bind_ret.
    apply (respects_drop_section_enrollment no_more_active
             no_more_active_refl no_more_active_trans
             no_more_active_dropped).
  - left. rewrite (db_of_bind_ret _ (fun _ => NoContent)).
    apply (respects_delete_section no_more_active
             no_more_active_refl no_more_active_trans
             no_more_active_dropped no_more_active_deleted).
Qed.

Lemma active_rows_append db' db uid sid st now u s :
  enrollments db' = enrollments db ++ [mkEnrollment uid sid st None now] ->
  active_rows db' u s
  = active_rows db u s
    ++ (if is_pair u s (mkEnrollment uid sid st None now)
           && negb (status_eqb st Dropped)
        then [mkEnrollment uid sid st None now] else []).
Proof.
  intros H. unfold active_rows. rewrite H, filter_app. reflexivity.
Qed.

Lemma at_most_one_active_run cs : forall db,
  at_most_one_active db ->
  joins_inactive cs db = true ->
  at_most_one_active (run cs db).
Proof.
  induction cs as [|c cs IH]; intros db Hinv Hdisc; [exact Hinv|].
  simpl in Hdisc. apply andb_true_iff in Hdisc as [Hc Hcs].
  change (run (c :: cs) db) with (run cs (after c db)).
  apply IH; [|exact Hcs].
  destruct (after_active_cases c db)
    as [Hle|[uid [body [st [now [Hrq Happ]]]]]].
  - intros u s. specialize (Hle u s). specialize (Hinv u s). lia.
  - rewrite Hrq in Hc. intros u s.
    rewrite (active_rows_append _ _ _ _ _ _ u s Happ).
    destruct (is_pair u s (mkEnrollment uid (section body) st None now))
      eqn:Hp; simpl.
    + unfold is_pair in Hp. simpl in Hp.
      apply andb_true_iff in Hp as [Hu Hs].
      apply Z.eqb_eq in Hu. apply Z.eqb_eq in Hs. subst u s.
      destruct (active_rows db uid (section body)); [|discriminate].
      simpl. destruct (negb (status_eqb st Dropped)); simpl; lia.
    + rewrite app_nil_r. apply Hinv.
Qed.

Lemma create_enrollment_adds_active_row uid body jwt_user jwt_roles now db x db' :
  create_enrollment uid body jwt_user jwt_roles now db = Ok x db' ->
  length (active_rows db' uid (section body))
  = S (length (active_rows db uid (section body))).
Proof.
  intros Hok.
  assert (Happ : exists st, st <> Dropped /\
            enrollments db'
            = enrollments db ++ [mkEnrollment uid (section body) st None now]).
  { destruct (create_enrollment_cases uid body jwt_user jwt_roles now db)
      as [[e H]|[[y H]|[y H]]]; rewrite H in Hok.
    - discriminate.
    - injection Hok as _ <-. exists Enrolled. now split.
    - injection Hok as _ <-. exists Waitlisted. now split. }
  destruct Happ as [st [Hst Happ]].
  rewrite (active_rows_append _ _ _ _ _ _ uid (section body) Happ).
  rewrite is_pair_new, length_app.
  destruct st; simpl; try lia. congruence.
Qed.

(** C7 as stated fails: user 5 joins an open section with two free seats
    twice; the second join is enrolled like the first and the pair holds
    two Enrolled rows. *)
Lemma second_join_adds_second_active_row :
  let cs := [Examples.join 5 1; Examples.join 5 1] in
  enrollments Examples.open_section = []
  /\ active_rows (run [Examples.join 5 1] Examples.open_section) 5 1
     = [mkEnrollment 5 1 Enrolled None 100]
  /\ active_rows (run cs Examples.open_section) 5 1
     = [mkEnrollment 5 1 Enrolled None 100; mkEnrollment 5 1 Enrolled None 100]
  /\ ~ at_most_one_active (run cs Examples.open_section).
Proof.
  repeat split.
  intros H. specialize (H 5 1). vm_compute in H. lia.
Qed.

(** C7, amended.  From a store in which each pair holds at most one
    active row, any sequence of calls in which no join is made for a
    pair that at that moment holds an active row leads to a store in
    which each pair holds at most one active row.  The join itself does
    not look for a row of the pair: whenever it succeeds, the pair has
    exactly one active row more than before. *)
Theorem active_rows_at_most_one cs db :
  at_most_one_active db ->
  joins_inactive cs db = true ->
  at_most_one_active (run cs db)
  /\ forall uid body jwt_user jwt_roles now x db',
       create_enrollment uid body jwt_user jwt_roles now (run cs db) = Ok x db' ->
       length (active_rows db' uid (section body))
       = S (length (active_rows (run cs db) uid (section body))).
Proof.
  intros Hinv Hdisc. split.
  - now apply at_most_one_active_run.
  - intros. eapply create_enrollment_adds_active_row. eassumption.
Qed.

Lemma active_rows_at_most_one_witness :
  at_most_one_active
    (run [Examples.join 5 1; Examples.join 6 1; Examples.join 7 1;
          mkCall (Examples.student 5) 100 (DropUserEnrollment 5 1);
          Examples.join 5 1]
       Examples.open_section).
Proof.
  apply (active_rows_at_most_one
           [Examples.join 5 1; Examples.join 6 1; Examples.join 7 1;
            mkCall (Examples.student 5) 100 (DropUserEnrollment 5 1);
            Examples.join 5 1]
           Examples.open_section).
  - intros u s. vm_compute. lia.
  - reflexivity.
Defined.

(** ** [delete_section] *)

Lemma delete_section_not_found db sid :
  list_sections db [sid] = [] ->
  delete_section sid db = Raise (HTTPException 404 "Section not found") db.
Proof.
  intros H. unfold delete_section, get_section, bind, query. now rewrite H.
Qed.

(** A missing section, or one already deleted, is not listed. *)
Lemma list_sections_missing_or_deleted db sid :
  (forall s, In s (section_rows db sid) -> s_deleted s = true) ->
  list_sections db [sid] = [].
Proof.
  unfold list_sections, section_rows. intros H.
  induction (sections db) as [|x l IH]; simpl in *; [reflexivity|].
  rewrite orb_false_r.
  destruct (s_id x =? sid) eqn:E; simpl.
  - rewrite (H x (or_introl eq_refl)). simpl.
    apply IH. intros s Hs. apply H. now right.
  - apply IH, H.
Qed.

(** The first loop: one [drop_user_enrollment] per listed user, none of
    which raises as long as each listed user has a row in the section. *)
Lemma for_each_drop_user_enrollment sid us : forall db,
  (forall u, In u us -> pair_rows db u sid <> []) ->
  for_each us (fun u => drop_user_enrollment u sid ;; ret tt) db
  = Ok tt (with_enrollments db (map (dropped_for us sid) (enrollments db))).
Proof.
  induction us as [|u us IH]; intros db Hrows; simpl.
  - unfold ret, dropped_for. simpl.
    now rewrite map_id, with_enrollments_same.
  - unfold bind at 1 2. rewrite drop_user_enrollment_eq.
    destruct (pair_rows db u sid) as [|r rest] eqn:E;
      [now destruct (Hrows u (or_introl eq_refl))|].
    simpl. unfold ret at 1.
    rewrite IH.
    + unfold update_enrollment_dropped, with_enrollments. simpl.
      now rewrite map_map.
    + intros u' Hu'. rewrite pair_rows_update_dropped.
      specialize (Hrows u' (or_intror Hu')).
      now destruct (pair_rows db u' sid).
Qed.

Lemma dropped_for_unchanged us sid e :
  in_section sid e && status_eqb (e_status e) Enrolled = false ->
  dropped_for us sid e = e.
Proof.
  intros H. unfold dropped_for.
  induction us as [|u us IH]; simpl; [reflexivity|].
  replace (set_dropped u sid e) with e; [exact IH|].
  unfold set_dropped, is_pair. fold (in_section sid e).
  rewrite <- andb_assoc, H. now rewrite andb_false_r.
Qed.

Lemma dropped_for_listed us sid e :
  in_section sid e = true ->
  e_status e = Enrolled ->
  In (e_user_id e) us ->
  dropped_for us sid e
  = mkEnrollment (e_user_id e) (e_section_id e) Dropped (e_grade e) (e_date e).
Proof.
  intros Hs Hst. unfold dropped_for.
  induction us as [|u us IH]; simpl; [tauto|].
  intros Hin. unfold set_dropped at 2, is_pair. fold (in_section sid e).
  rewrite Hs, Hst. simpl. rewrite andb_true_r.
  destruct (e_user_id e =? u) eqn:E.
  - apply (dropped_for_unchanged us sid). simpl. apply andb_false_r.
  - apply IH. destruct Hin as [->|Hin]; [|exact Hin].
    now rewrite Z.eqb_refl in E.
Qed.

Lemma dropped_for_section sid l :
  map (dropped_for (map e_user_id (filter (in_section sid) l)) sid) l
  = map (set_section_dropped sid) l.
Proof.
  apply map_ext_in. intros e He. unfold set_section_dropped.
  destruct (in_section sid e && status_eqb (e_status e) Enrolled) eqn:E.
  - apply andb_true_iff in E as [Hs Hst].
    apply dropped_for_listed; [exact Hs | now destruct (e_status e) |].
    apply in_map, filter_In. now split.
  - now apply dropped_for_unchanged.
Qed.

(** What [delete_section] does on a section that is listed: it marks the
    section deleted, turns the section's Enrolled rows into Dropped, and
    then, when the section has a waitlist entry, raises [TypeError] from
    the first [drop_user_waitlist], leaving the waitlist as it was. *)
Lemma delete_section_listed db sid s rest :
  list_sections db [sid] = s :: rest ->
  let db' :=
    mkDB (map (set_deleted sid) (sections db))
         (map (set_section_dropped sid) (enrollments db))
         (waitlist db) in
  delete_section sid db
  = match select_waitlist_users sid db with
    | [] => Ok tt db'
    | _ :: _ => Raise TypeError db'
    end.
Proof.
  intros Hlist db'. unfold delete_section, get_section.
  unfold bind at 1 2 3, query at 1. rewrite Hlist.
  unfold ret at 1, exec at 1.
  unfold bind at 1 2, query at 1.
  rewrite for_each_drop_user_enrollment.
  - unfold bind at 1, query at 1.
    unfold select_enrollment_users, update_section_deleted. simpl.
    rewrite dropped_for_section.
    unfold select_waitlist_users. simpl. fold db'.
    destruct (map w_user_id (filter (on_section sid) (waitlist db)));
      reflexivity.
  - intros u Hu. unfold select_enrollment_users in Hu.
    apply in_map_iff in Hu as [e [<- He]].
    apply filter_In in He as [He Hs].
    assert (Hin : In e (pair_rows (update_section_deleted sid db)
                          (e_user_id e) sid)).
    { apply filter_In. split; [exact He|].
      unfold is_pair. rewrite Z.eqb_refl. exact Hs. }
    intros Hnil. now rewrite Hnil in Hin.
Qed.

(** C4.  Scenario D: users 10 and 11 are Enrolled in section 1 and
    user 12 is Waitlisted.  [delete_section] does not return: it marks
    the section deleted, turns the two Enrolled rows into Dropped, and
    the call of [drop_user_waitlist] for user 12, made without the
    caller's identity, raises [TypeError].  The row of user 12 is still
    Waitlisted and the waitlist entry is still there. *)
Theorem delete_section_scenario_d_raises_type_error :
  list_sections Examples.scenario_d [1] = [mkSection 1 2 2 false false 9]
  /\ delete_section 1 Examples.scenario_d
     = Raise TypeError
         (mkDB [mkSection 1 2 2 false true 9]
               [mkEnrollment 10 1 Dropped None 50;
                mkEnrollment 11 1 Dropped None 51;
                mkEnrollment 12 1 Waitlisted None 60]
               [mkWaitlist 12 1 0 60]).
Proof. split; reflexivity. Qed.

(** * Further properties of the handlers *)

(** ** The outcome of a join *)

(** [create_enrollment] in closed form: the caller test, then the two
    queries, decide between the four ways it ends. *)
Lemma create_enrollment_outcome uid body jwt_user jwt_roles now db :
  create_enrollment uid body jwt_user jwt_roles now db
  = if authorized jwt_user jwt_roles uid then
      match select_section_with_space (section body) db with
      | Some _ =>
          Ok (mkCreateEnrollmentResponse
                (hd (mkEnrollment uid (section body) Enrolled None now)
                   (pair_rows db uid (section body))) None)
             (insert_enrollment uid (section body) Enrolled now db)
      | None =>
          match select_section_with_waitlist_space (section body) uid db with
          | Some _ =>
              Ok (mkCreateEnrollmentResponse
                    (hd (mkEnrollment uid (section body) Waitlisted None now)
                       (pair_rows db uid (section body)))
                    (Some (count_section_waitlist db (section body))))
                 (mkDB (sections db)
                    (enrollments db ++
                     [mkEnrollment uid (section body) Waitlisted None now])
                    (waitlist db ++
                     [mkWaitlist uid (section body)
                        (count_section_waitlist db (section body)) now]))
          | None =>
              Raise (HTTPException 400 "Section is full and waitlist is full.")
                db
          end
      end
    else Raise (HTTPException 403 "Not authorized") db.
Proof.
  unfold create_enrollment. rewrite authorized_guard.
  destruct (authorized jwt_user jwt_roles uid); [|reflexivity].
  simpl. unfold bind at 1, query at 1.
  destruct (select_section_with_space (section body) db).
  - unfold bind, exec, ret, query.
    now rewrite list_enrollments_pair, pair_rows_insert, first_item_snoc.
  - unfold bind at 1 2, query at 1.
    destruct (select_section_with_waitlist_space (section body) uid db);
      [|reflexivity].
    unfold bind, exec_returning, exec, ret, query. simpl.
    now rewrite list_enrollments_pair, pair_rows_insert, first_item_snoc.
Qed.

Lemma select_section_with_space_some sid db i :
  select_section_with_space sid db = Some i ->
  exists s, In s (sections db) /\ has_space db sid s = true.
Proof.
  unfold select_section_with_space.
  destruct (filter (has_space db sid) (sections db)) as [|s l] eqn:E;
    [discriminate|].
  intros _. exists s. apply filter_In. rewrite E. now left.
Qed.

Lemma select_section_with_waitlist_space_some sid uid db i :
  select_section_with_waitlist_space sid uid db = Some i ->
  exists s, In s (sections db) /\ has_waitlist_space db sid uid s = true.
Proof.
  unfold select_section_with_waitlist_space.
  destruct (filter (has_waitlist_space db sid uid) (sections db))
    as [|s l] eqn:E; [discriminate|].
  intros _. exists s. apply filter_In. rewrite E. now left.
Qed.

(** Both queries come back empty when every row carrying the id is
    frozen or deleted, and so when there is none. *)
Lemma select_none_when_closed sid uid db :
  (forall s, In s (sections db) -> s_id s = sid ->
             s_freeze s = true \/ s_deleted s = true) ->
  select_section_with_space sid db = None
  /\ select_section_with_waitlist_space sid uid db = None.
Proof.
  intros H.
  split.
  - destruct (select_section_with_space sid db) as [i|] eqn:E; [|reflexivity].
    apply select_section_with_space_some in E as [s [Hin Hs]].
    unfold has_space in Hs. repeat (apply andb_true_iff in Hs as [Hs ?]).
    apply Z.eqb_eq in Hs.
    destruct (H s Hin Hs) as [Hf|Hd].
    + rewrite Hf in *. discriminate.
    + rewrite Hd in *. discriminate.
  - destruct (select_section_with_waitlist_space sid uid db) as [i|] eqn:E;
      [|reflexivity].
    apply select_section_with_waitlist_space_some in E as [s [Hin Hs]].
    unfold has_waitlist_space in Hs.
    repeat (apply andb_true_iff in Hs as [Hs ?]).
    apply Z.eqb_eq in Hs.
    destruct (H s Hin Hs) as [Hf|Hd].
    + rewrite Hf in *. discriminate.
    + rewrite Hd in *. discriminate.
Qed.

Lemma section_rows_none db sid :
  section_rows db sid = [] ->
  forall s, In s (sections db) -> s_id s = sid ->
            s_freeze s = true \/ s_deleted s = true.
Proof.
  intros H s Hin Hid.
  assert (Hs : In s (section_rows db sid))
    by (apply filter_In; split; [exact Hin | now apply Z.eqb_eq]).
  rewrite H in Hs. destruct Hs.
Qed.

(** X1.  A join never rewrites or removes a row.  Whatever its outcome,
    the [sections] table is as before, and [enrollments] and [waitlist]
    are the old tables followed by at most one new row each: a row of the
    joining pair, active, without grade, dated now; a waitlist entry only
    together with an enrollment row. *)
Theorem join_only_appends uid body jwt_user jwt_roles now db :
  let db' := db_of (create_enrollment uid body jwt_user jwt_roles now db) in
  sections db' = sections db
  /\ exists es ws,
       enrollments db' = enrollments db ++ es
       /\ waitlist db' = waitlist db ++ ws
       /\ (length ws <= length es <= 1)%nat
       /\ Forall (fun e => e_user_id e = uid /\ e_section_id e = section body
                           /\ e_grade e = None /\ e_date e = now
                           /\ e_status e <> Dropped) es
       /\ Forall (fun w => w_user_id w = uid /\ w_section_id w = section body
                           /\ w_date w = now) ws.
Proof.
  intros db'. subst db'. rewrite create_enrollment_outcome.
  destruct (authorized jwt_user jwt_roles uid);
    [|split; [reflexivity|]; exists [], []; rewrite !app_nil_r;
      repeat split; auto].
  destruct (select_section_with_space (section body) db).
  { split; [reflexivity|].
    exists [mkEnrollment uid (section body) Enrolled None now], [].
    rewrite app_nil_r. simpl. repeat split; auto.
    repeat constructor. simpl. discriminate. }
  destruct (select_section_with_waitlist_space (section body) uid db).
  - split; [reflexivity|].
    exists [mkEnrollment uid (section body) Waitlisted None now],
           [mkWaitlist uid (section body)
              (count_section_waitlist db (section body)) now].
    simpl. repeat split; auto.
    repeat constructor. simpl. discriminate.
  - split; [reflexivity|]. exists [], []. rewrite !app_nil_r.
    repeat split; auto.
Qed.

(** X2.  A join for a section id that SQLite stores and that no row of
    [sections] carries is not answered with 404: a caller who may act
    for the user gets 400 "Section is full and waitlist is full.", and
    nothing is written. *)
Theorem join_unknown_section_is_400 uid sid jwt_user jwt_roles now db :
  authorized jwt_user jwt_roles uid = true ->
  sql_integer uid ->
  sql_integer sid ->
  section_rows db sid = [] ->
  create_enrollment uid (mkCreateEnrollmentRequest sid) jwt_user jwt_roles now db
  = Raise (HTTPException 400 "Section is full and waitlist is full.") db.
Proof.
  intros Hauth _ _ Hrows. rewrite create_enrollment_outcome, Hauth. simpl.
  destruct (select_none_when_closed sid uid db
              (section_rows_none db sid Hrows)) as [-> ->].
  reflexivity.
Qed.

Lemma join_unknown_section_is_400_witness :
  create_enrollment 5 (mkCreateEnrollmentRequest 42) 5 [Student] 100
    Examples.one_waiting
  = Raise (HTTPException 400 "Section is full and waitlist is full.")
      Examples.one_waiting.
Proof.
  apply (join_unknown_section_is_400 5 42 5 [Student] 100
           Examples.one_waiting);
    first [ reflexivity
          | split; [vm_compute; discriminate | reflexivity] ].
Defined.

(** ** Handlers that raise *)





(** [drop_section_enrollment] in closed form. *)
Lemma drop_section_enrollment_eq sid uid jwt_user jwt_roles db :
  drop_section_enrollment sid uid jwt_user jwt_roles db
  = if authorized jwt_user jwt_roles uid
    then drop_user_enrollment uid sid db
    else match select_instructor_id sid db with
         | None => Raise (HTTPException 404 "Section not found.") db
         | Some instructor_id =>
             if instructor_id =? jwt_user
             then drop_user_enrollment uid sid db
             else Raise (HTTPException 403 "Not authorized") db
         end.
Proof.
  unfold drop_section_enrollment. rewrite authorized_guard.
  destruct (authorized jwt_user jwt_roles uid); simpl; [reflexivity|].
  unfold bind at 1 2, query at 1.
  destruct (select_instructor_id sid db) as [i|]; [|reflexivity].
  now destruct (i =? jwt_user).
Qed.




(** ** Capacities and quota along any sequence of calls *)

Lemma run_preserves (P : DB -> Prop) :
  (forall c db, P db -> P (after c db)) ->
  forall cs db, P db -> P (run cs db).
Proof.
  intros Hstep cs. induction cs as [|c cs IH]; intros db H; [exact H|].
  change (run (c :: cs) db) with (run cs (after c db)). apply IH, Hstep, H.
Qed.

Lemma shrinks_refl db : shrinks db db.
Proof. repeat split; intros; lia. Qed.

Lemma shrinks_trans a b c : shrinks a b -> shrinks b c -> shrinks a c.
Proof.
  intros [Hc1 [He1 [Hw1 Hu1]]] [Hc2 [He2 [Hw2 Hu2]]].
  split; [congruence|]. repeat split; intros x.
  - specialize (He1 x). specialize (He2 x). lia.
  - specialize (Hw1 x). specialize (Hw2 x). lia.
  - specialize (Hu1 x). specialize (Hu2 x). lia.
Qed.

Lemma shrinks_dropped uid sid db :
  shrinks db (update_enrollment_dropped uid sid db).
Proof.
  split; [reflexivity|].
  split; [|split; intros x; apply Z.le_refl].
  intros x. unfold enrolled_count, update_enrollment_dropped. simpl.
  apply Nat2Z.inj_le, filter_map_length_le. intros e.
  unfold set_dropped, is_enrolled_in.
  destruct (is_pair uid sid e && status_eqb (e_status e) Enrolled); simpl;
    [|auto].
  now rewrite andb_false_r.
Qed.

Lemma shrinks_deleted sid db : shrinks db (update_section_deleted sid db).
Proof.
  split; [|repeat split; intros x; apply Z.le_refl].
  unfold capacities, update_section_deleted. simpl.
  rewrite map_map. apply map_ext. intros s. unfold set_deleted.
  now destruct (s_id s =? sid).
Qed.

Lemma shrinks_drop_waitlist uid sid p db :
  shrinks db
    (mkDB (sections db)
       (filter (fun e => negb (is_waitlisted_pair uid sid e)) (enrollments db))
       (map (decrement sid p)
          (filter (fun x => negb (is_entry uid sid x)) (waitlist db)))).
Proof.
  split; [reflexivity|]. repeat split; intros x.
  - unfold enrolled_count. simpl.
    apply Nat2Z.inj_le, filter_filter_length_le.
  - unfold count_section_waitlist. simpl. apply Nat2Z.inj_le.
    rewrite filter_map_commute by (intros w; apply decrement_section).
    rewrite length_map. apply filter_filter_length_le.
  - unfold count_user_waitlist. simpl. apply Nat2Z.inj_le.
    rewrite filter_map_commute
      by (intros w; unfold decrement;
          now destruct (on_section sid w && (w_position w >? p))).
    rewrite length_map. apply filter_filter_length_le.
Qed.

(** What one call does to the store: it shrinks it, or it is a join
    enrolled on the strength of a row with space, or a join waitlisted on
    the strength of a row with waitlist space. *)
Lemma after_steps c db :
  shrinks db (after c db)
  \/ (exists uid sid now s,
        In s (sections db) /\ has_space db sid s = true
        /\ after c db = insert_enrollment uid sid Enrolled now db)
  \/ (exists uid sid now s,
        In s (sections db) /\ has_waitlist_space db sid uid s = true
        /\ after c db
           = mkDB (sections db)
               (enrollments db ++ [mkEnrollment uid sid Waitlisted None now])
               (waitlist db ++
                [mkWaitlist uid sid (count_section_waitlist db sid) now])).
Proof.
  destruct c as [cl t rq]. unfold after. simpl.
  destruct rq as [uid body|uid sid|uid sid|sid uid|sid]; simpl.
  - rewrite db_of_bind_ret, create_enrollment_outcome.
    destruct (authorized (caller_user cl) (caller_roles cl) uid);
      [|left; apply shrinks_refl].
    destruct (select_section_with_space (section body) db) as [i|] eqn:E1.
    { right; left.
      apply select_section_with_space_some in E1 as [s [Hin Hs]].
      now exists uid, (section body), t, s. }
    destruct (select_section_with_waitlist_space (section body) uid db)
      as [i|] eqn:E2; [|left; apply shrinks_refl].
    right; right.
    apply select_section_with_waitlist_space_some in E2 as [s [Hin Hs]].
    now exists uid, (section body), t, s.
  - left. rewrite db_of_bind_ret, db_of_drop_user_enrollment.
    apply shrinks_dropped.
  - left. rewrite (db_of_bind_ret _ (fun _ => NoContent)).
    destruct (authorized (caller_user cl) (caller_roles cl) uid) eqn:Hauth.
    + rewrite drop_user_waitlist_authorized by exact Hauth.
      destruct (entry_rows db uid sid) as [|w rest]; [apply shrinks_refl|].
      apply shrinks_drop_waitlist.
    + rewrite drop_user_waitlist_forbidden by exact Hauth.
      apply shrinks_refl.
  - left. rewrite db_of_bind_ret.
    apply (respects_drop_section_enrollment shrinks
             shrinks_refl shrinks_trans shrinks_dropped).
  - left. rewrite (db_of_bind_ret _ (fun _ => NoContent)).
    apply (respects_delete_section shrinks
             shrinks_refl shrinks_trans shrinks_dropped shrinks_deleted).
Qed.

Lemma capacities_bound (P : Z -> Z -> Prop) sid db db' :
  capacities db' = capacities db ->
  (forall s, In s (sections db) -> s_id s = sid ->
             P (s_capacity s) (s_waitlist_capacity s)) ->
  forall s, In s (sections db') -> s_id s = sid ->
            P (s_capacity s) (s_waitlist_capacity s).
Proof.
  intros Hcap H s Hin Hid.
  assert (Ht : In (s_id s, s_capacity s, s_waitlist_capacity s) (capacities db'))
    by (unfold capacities;
        apply (in_map (fun s => (s_id s, s_capacity s, s_waitlist_capacity s)));
        exact Hin).
  rewrite Hcap in Ht. unfold capacities in Ht.
  apply in_map_iff in Ht as [s0 [Heq Hin0]].
  injection Heq as Hi Hc Hw. rewrite <- Hc, <- Hw.
  apply H; [exact Hin0 | congruence].
Qed.

Lemma enrolled_count_insert uid sid st now db sid' :
  enrolled_count (insert_enrollment uid sid st now db) sid'
  = enrolled_count db sid'
    + (if (sid =? sid') && status_eqb st Enrolled then 1 else 0).
Proof.
  unfold enrolled_count, insert_enrollment. simpl.
  rewrite filter_app, length_app, Nat2Z.inj_add. f_equal.
  unfold is_enrolled_in, in_section. simpl.
  now destruct ((sid =? sid') && status_eqb st Enrolled).
Qed.

Lemma enrolled_step c db sid bound :
  (forall s, In s (sections db) -> s_id s = sid -> s_capacity s <= bound)
  /\ enrolled_count db sid <= bound ->
  (forall s, In s (sections (after c db)) -> s_id s = sid ->
             s_capacity s <= bound)
  /\ enrolled_count (after c db) sid <= bound.
Proof.
  intros [Hcap Hcount].
  destruct (after_steps c db)
    as [[Hc [He _]]|[[u [sd [now [s [Hin [Hs ->]]]]]]
                    |[u [sd [now [s [Hin [Hs ->]]]]]]]].
  - split.
    + apply (capacities_bound (fun c _ => c <= bound) sid db); assumption.
    + specialize (He sid). lia.
  - split; [exact Hcap|].
    rewrite enrolled_count_insert. simpl. rewrite andb_true_r.
    destruct (sd =? sid) eqn:E; [|lia].
    apply Z.eqb_eq in E. subst sd.
    unfold has_space in Hs. repeat (apply andb_true_iff in Hs as [Hs ?]).
    apply Z.eqb_eq in Hs.
    pose proof (Hcap s Hin Hs). pose proof (enrolled_count_le db sid).
    assert (count_section_enrollments db sid < s_capacity s)
      by now apply Z.gtb_lt.
    lia.
  - split; [exact Hcap|].
    change (enrolled_count _ sid)
      with (enrolled_count (insert_enrollment u sd Waitlisted now db) sid).
    rewrite enrolled_count_insert. simpl. rewrite andb_false_r. lia.
Qed.

(** X4.  Capacity.  Take a section id and a bound that no row carrying
    the id exceeds in capacity.  If the section's Enrolled rows number at
    most [bound], they still do after any sequence of calls: no join is
    enrolled directly beyond the capacity. *)
Theorem enrolled_within_capacity cs db sid bound :
  (forall s, In s (sections db) -> s_id s = sid -> s_capacity s <= bound) ->
  enrolled_count db sid <= bound ->
  enrolled_count (run cs db) sid <= bound.
Proof.
  intros Hcap Hcount.
  apply (run_preserves
           (fun d => (forall s, In s (sections d) -> s_id s = sid ->
                                s_capacity s <= bound)
                     /\ enrolled_count d sid <= bound)).
  - intros c d. apply enrolled_step.
  - now split.
Qed.

Lemma enrolled_within_capacity_witness :
  enrolled_count
    (run [Examples.join 1 1; Examples.join 2 1; Examples.join 3 1;
          Examples.join 4 1]
       Examples.open_section) 1 <= 2.
Proof.
  apply (enrolled_within_capacity
           [Examples.join 1 1; Examples.join 2 1; Examples.join 3 1;
            Examples.join 4 1]
           Examples.open_section 1 2).
  - intros s [<-|[]] _. simpl. lia.
  - vm_compute. discriminate.
Defined.

Lemma count_section_waitlist_append db es uid sid p now sid' :
  count_section_waitlist
    (mkDB (sections db) es (waitlist db ++ [mkWaitlist uid sid p now])) sid'
  = count_section_waitlist db sid' + (if sid =? sid' then 1 else 0).
Proof.
  unfold count_section_waitlist. simpl.
  rewrite filter_app, length_app, Nat2Z.inj_add. f_equal.
  unfold on_section. simpl. now destruct (sid =? sid').
Qed.

Lemma count_user_waitlist_append db es uid sid p now uid' :
  count_user_waitlist
    (mkDB (sections db) es (waitlist db ++ [mkWaitlist uid sid p now])) uid'
  = count_user_waitlist db uid' + (if uid =? uid' then 1 else 0).
Proof.
  unfold count_user_waitlist. simpl.
  rewrite filter_app, length_app, Nat2Z.inj_add. f_equal.
  simpl. now destruct (uid =? uid').
Qed.

Lemma waitlist_step c db sid bound :
  (forall s, In s (sections db) -> s_id s = sid ->
             s_waitlist_capacity s <= bound)
  /\ count_section_waitlist db sid <= bound ->
  (forall s, In s (sections (after c db)) -> s_id s = sid ->
             s_waitlist_capacity s <= bound)
  /\ count_section_waitlist (after c db) sid <= bound.
Proof.
  intros [Hcap Hcount].
  destruct (after_steps c db)
    as [[Hc [_ [Hw _]]]|[[u [sd [now [s [Hin [Hs ->]]]]]]
                        |[u [sd [now [s [Hin [Hs ->]]]]]]]].
  - split.
    + apply (capacities_bound (fun _ w => w <= bound) sid db); assumption.
    + specialize (Hw sid). lia.
  - split; [exact Hcap | exact Hcount].
  - split; [exact Hcap|].
    rewrite count_section_waitlist_append.
    destruct (sd =? sid) eqn:E; [|lia].
    apply Z.eqb_eq in E. subst sd.
    unfold has_waitlist_space in Hs.
    repeat (apply andb_true_iff in Hs as [Hs ?]).
    apply Z.eqb_eq in Hs.
    pose proof (Hcap s Hin Hs).
    assert (count_section_waitlist db sid < s_waitlist_capacity s)
      by now apply Z.gtb_lt.
    lia.
Qed.

(** X5.  Waitlist capacity.  Take a section id and a bound that no row
    carrying the id exceeds in [waitlist_capacity].  If the section's
    waitlist holds at most [bound] entries, it still does after any
    sequence of calls. *)
Theorem waitlist_within_capacity cs db sid bound :
  (forall s, In s (sections db) -> s_id s = sid ->
             s_waitlist_capacity s <= bound) ->
  count_section_waitlist db sid <= bound ->
  count_section_waitlist (run cs db) sid <= bound.
Proof.
  intros Hcap Hcount.
  apply (run_preserves
           (fun d => (forall s, In s (sections d) -> s_id s = sid ->
                                s_waitlist_capacity s <= bound)
                     /\ count_section_waitlist d sid <= bound)).
  - intros c d. apply waitlist_step.
  - now split.
Qed.

Lemma waitlist_within_capacity_witness :
  count_section_waitlist
    (run [Examples.join 1 1; Examples.join 2 1; Examples.join 3 1;
          Examples.join 4 1]
       Examples.scenario_a) 1 <= 2.
Proof.
  apply (waitlist_within_capacity
           [Examples.join 1 1; Examples.join 2 1; Examples.join 3 1;
            Examples.join 4 1]
           Examples.scenario_a 1 2).
  - intros s [<-|[]] _. simpl. lia.
  - vm_compute. discriminate.
Defined.

Lemma quota_step c db uid :
  count_user_waitlist db uid <= 3 ->
  count_user_waitlist (after c db) uid <= 3.
Proof.
  intros Hcount.
  destruct (after_steps c db)
    as [[_ [_ [_ Hu]]]|[[u [sd [now [s [Hin [Hs ->]]]]]]
                       |[u [sd [now [s [Hin [Hs ->]]]]]]]].
  - specialize (Hu uid). lia.
  - exact Hcount.
  - rewrite count_user_waitlist_append.
    destruct (u =? uid) eqn:E; [|lia].
    apply Z.eqb_eq in E. subst u.
    unfold has_waitlist_space in Hs.
    repeat (apply andb_true_iff in Hs as [Hs ?]).
    assert (count_user_waitlist db uid < 3) by now apply Z.ltb_lt.
    lia.
Qed.

(** X6.  Waitlist quota.  A user who holds at most 3 waitlist entries
    over all sections holds at most 3 after any sequence of calls. *)
Theorem waitlist_quota_of_three cs db uid :
  count_user_waitlist db uid <= 3 ->
  count_user_waitlist (run cs db) uid <= 3.
Proof.
  apply (run_preserves (fun d => count_user_waitlist d uid <= 3)).
  intros c d. apply quota_step.
Qed.

Lemma waitlist_quota_of_three_witness :
  count_user_waitlist
    (run [Examples.join 1 1; Examples.join 1 1; Examples.join 1 1;
          Examples.join 1 1; Examples.join 1 1]
       Examples.full_section) 1 <= 3.
Proof.
  apply (waitlist_quota_of_three
           [Examples.join 1 1; Examples.join 1 1; Examples.join 1 1;
            Examples.join 1 1; Examples.join 1 1]
           Examples.full_section 1).
  vm_compute. discriminate.
Defined.

(** ** A drop and the next join *)

Lemma count_section_enrollments_dropped uid sid db sid' :
  count_section_enrollments (update_enrollment_dropped uid sid db) sid'
  = count_section_enrollments db sid'.
Proof.
  unfold count_section_enrollments, update_enrollment_dropped. simpl.
  rewrite filter_map_commute, length_map; [reflexivity|].
  intros e. unfold set_dropped, in_section.
  now destruct (is_pair uid sid e && status_eqb (e_status e) Enrolled).
Qed.

Lemma selects_after_dropped uid sid db sid' uid' :
  select_section_with_space sid' (update_enrollment_dropped uid sid db)
  = select_section_with_space sid' db
  /\ select_section_with_waitlist_space sid' uid'
       (update_enrollment_dropped uid sid db)
     = select_section_with_waitlist_space sid' uid' db.
Proof.
  split; [|reflexivity].
  unfold select_section_with_space. simpl. f_equal. f_equal.
  apply filter_ext. intros s. unfold has_space.
  now rewrite count_section_enrollments_dropped.
Qed.

(** X7.  Dropping an enrollment frees no seat.  After
    [drop_user_enrollment], returned or raised, the number of rows that
    [create_enrollment] compares with the capacity is what it was, for
    every section; so any join gets after the drop the decision it would
    have got before it: enrolled, waitlisted at the same position, or
    turned away with the same error. *)
Theorem drop_user_enrollment_frees_no_seat
  uid sid db uid' body jwt_user jwt_roles now :
  let db1 := db_of (drop_user_enrollment uid sid db) in
  (forall sid', count_section_enrollments db1 sid'
                = count_section_enrollments db sid')
  /\ match create_enrollment uid' body jwt_user jwt_roles now db1,
           create_enrollment uid' body jwt_user jwt_roles now db with
     | Ok x1 _, Ok x0 _ => waitlist_position x1 = waitlist_position x0
     | Raise e1 _, Raise e0 _ => e1 = e0
     | _, _ => False
     end.
Proof.
  intros db1. subst db1. rewrite db_of_drop_user_enrollment.
  split; [intros; apply count_section_enrollments_dropped|].
  rewrite !create_enrollment_outcome.
  destruct (selects_after_dropped uid sid db (section body) uid') as [-> ->].
  destruct (authorized jwt_user jwt_roles uid'); [|reflexivity].
  destruct (select_section_with_space (section body) db); [reflexivity|].
  now destruct (select_section_with_waitlist_space (section body) uid' db).
Qed.

Lemma mkDB_same db : mkDB (sections db) (enrollments db) (waitlist db) = db.
Proof. now destruct db. Qed.

(** X8.  Joining a waitlist and leaving it again is a round trip.  Let
    the section's positions be contiguous, the user hold no entry on the
    section's waitlist and the pair no Waitlisted row.  If a join puts
    the user on the waitlist, then [drop_user_waitlist] by the same
    caller returns and the store is again exactly the one before the
    join. *)
Theorem join_waitlist_then_leave_restores
  uid sid jwt_user jwt_roles now db x db1 :
  contiguous (section_positions db sid) ->
  entry_rows db uid sid = [] ->
  filter (is_waitlisted_pair uid sid) (enrollments db) = [] ->
  create_enrollment uid (mkCreateEnrollmentRequest sid) jwt_user jwt_roles now db
  = Ok x db1 ->
  waitlist_position x <> None ->
  drop_user_waitlist uid sid (Injected jwt_user) (Injected jwt_roles) db1
  = Ok tt db.
Proof.
  intros [_ Hpos] Hentry Hrows Hjoin Hwl.
  rewrite create_enrollment_outcome in Hjoin. simpl in Hjoin.
  destruct (authorized jwt_user jwt_roles uid) eqn:Hauth; [|discriminate].
  destruct (select_section_with_space sid db);
    [injection Hjoin as <- _; now destruct Hwl|].
  destruct (select_section_with_waitlist_space sid uid db); [|discriminate].
  injection Hjoin as _ <-.
  rewrite drop_user_waitlist_authorized by exact Hauth.
  assert (Hnew : forall p, is_entry uid sid (mkWaitlist uid sid p now) = true)
    by (intros p; unfold is_entry; cbn; now rewrite !Z.eqb_refl).
  assert (Hrow : is_waitlisted_pair uid sid
                   (mkEnrollment uid sid Waitlisted None now) = true)
    by (unfold is_waitlisted_pair; now rewrite is_pair_new).
  unfold entry_rows in *. cbn [waitlist enrollments sections].
  rewrite !filter_app. cbn [filter].
  rewrite Hentry, Hnew, Hrow. cbn [negb app hd_error map w_position].
  rewrite (filter_none_negb _ _ Hentry), (filter_none_negb _ _ Hrows).
  rewrite !app_nil_r.
  replace (map (decrement sid (count_section_waitlist db sid)) (waitlist db))
    with (waitlist db); [now rewrite mkDB_same|].
  rewrite <- (map_id (waitlist db)) at 1. apply map_ext_in.
  intros w Hw. unfold decrement.
  destruct (on_section sid w) eqn:Hs; [|reflexivity]. simpl.
  assert (Hlt : w_position w < count_section_waitlist db sid).
  { unfold count_section_waitlist.
    rewrite <- (length_map w_position). apply Hpos.
    unfold section_positions. apply in_map, filter_In. now split. }
  replace (w_position w >? count_section_waitlist db sid) with false;
    [reflexivity|].
  symmetry. rewrite Z.gtb_ltb. apply Z.ltb_ge. lia.
Qed.

Lemma join_waitlist_then_leave_restores_witness :
  drop_user_waitlist 13 1 (Injected 13) (Injected [Student])
    (mkDB (sections Examples.one_waiting)
       (enrollments Examples.one_waiting ++
        [mkEnrollment 13 1 Waitlisted None 100])
       (waitlist Examples.one_waiting ++ [mkWaitlist 13 1 1 100]))
  = Ok tt Examples.one_waiting.
Proof.
  apply (join_waitlist_then_leave_restores 13 1 13 [Student] 100
           Examples.one_waiting
           (mkCreateEnrollmentResponse
              (mkEnrollment 13 1 Waitlisted None 100) (Some 1))).
  - split; [repeat constructor; simpl; tauto|].
    intros p. vm_compute. split.
    + intros [<-|[]]. now split.
    + intros [H1 H2]. left.
      destruct p as [|p|p]; [reflexivity| |now destruct H1].
      destruct p; discriminate H2.
  - reflexivity.
  - reflexivity.
  - reflexivity.
  - discriminate.
Defined.

(** X9.  [drop_section_enrollment] is [drop_user_enrollment] behind a
    gate: for a registrar, for the user, and for the instructor recorded
    on the first row carrying the section id, it returns the same value
    and leaves the same store as [drop_user_enrollment]. *)
Theorem drop_section_enrollment_behind_gate sid uid jwt_user jwt_roles db :
  authorized jwt_user jwt_roles uid = true
  \/ select_instructor_id sid db = Some jwt_user ->
  drop_section_enrollment sid uid jwt_user jwt_roles db
  = drop_user_enrollment uid sid db.
Proof.
  intros H. rewrite drop_section_enrollment_eq.
  destruct (authorized jwt_user jwt_roles uid); [reflexivity|].
  destruct H as [H|H]; [discriminate|].
  now rewrite H, Z.eqb_refl.
Qed.

Lemma drop_section_enrollment_behind_gate_witness :
  drop_section_enrollment 1 10 9 [Instructor] Examples.one_waiting
  = drop_user_enrollment 10 1 Examples.one_waiting.
Proof.
  apply (drop_section_enrollment_behind_gate 1 10 9 [Instructor]
           Examples.one_waiting).
  right. reflexivity.
Defined.

(** ** More on [delete_section] *)

Lemma no_enrolled_after_section_dropped sid l :
  filter (is_enrolled_in sid) (map (set_section_dropped sid) l) = [].
Proof.
  induction l as [|e l IH]; simpl; [reflexivity|].
  replace (is_enrolled_in sid (set_section_dropped sid e)) with false;
    [exact IH|].
  unfold is_enrolled_in, set_section_dropped.
  destruct (in_section sid e && status_eqb (e_status e) Enrolled) eqn:E.
  - cbn [e_status status_eqb]. now rewrite andb_false_r.
  - now rewrite E.
Qed.

Lemma set_deleted_rows sid l s :
  In s (map (set_deleted sid) l) -> s_id s = sid -> s_deleted s = true.
Proof.
  intros Hin Hid. apply in_map_iff in Hin as [s0 [<- _]].
  unfold set_deleted in *.
  destruct (s_id s0 =? sid) eqn:E; [reflexivity|].
  apply Z.eqb_neq in E. contradiction.
Qed.

Lemma touches_only_section_refl sid db : touches_only_section sid db db.
Proof. repeat split. Qed.

Lemma filter_map_fixed {A} (f : A -> bool) (g : A -> A) l :
  (forall x, f (g x) = f x) ->
  (forall x, f x = true -> g x = x) ->
  filter f (map g l) = filter f l.
Proof.
  intros Hf Hg. induction l as [|x l IH]; simpl; [reflexivity|].
  rewrite Hf. destruct (f x) eqn:E; [|exact IH].
  now rewrite (Hg x E), IH.
Qed.

Lemma touches_only_section_deleted sid db :
  touches_only_section sid db
    (mkDB (map (set_deleted sid) (sections db))
       (map (set_section_dropped sid) (enrollments db))
       (waitlist db)).
Proof.
  split; [reflexivity|]. simpl. split; [|split].
  - rewrite map_map. apply map_ext. intros e. unfold set_section_dropped.
    now destruct (in_section sid e && status_eqb (e_status e) Enrolled).
  - apply filter_map_fixed; intros e; unfold set_section_dropped.
    + now destruct (in_section sid e && status_eqb (e_status e) Enrolled).
    + intros H. apply negb_true_iff in H. now rewrite H.
  - apply filter_map_fixed; intros x; unfold set_deleted.
    + destruct (s_id x =? sid) eqn:E; simpl; now rewrite E.
    + intros H. apply negb_true_iff in H. now rewrite H.
Qed.

(** X10.  Deleting a listed section on whose waitlist nobody stands
    returns; afterwards every row carrying the id is marked deleted and
    no row of the section is Enrolled. *)
Theorem delete_section_without_waitlist db sid s rest :
  list_sections db [sid] = s :: rest ->
  select_waitlist_users sid db = [] ->
  exists db',
    delete_section sid db = Ok tt db'
    /\ (forall s', In s' (sections db') -> s_id s' = sid -> s_deleted s' = true)
    /\ enrolled_count db' sid = 0.
Proof.
  intros Hlist Hwait.
  rewrite (delete_section_listed db sid s rest Hlist), Hwait.
  eexists. split; [reflexivity|]. split.
  - intros s'. apply set_deleted_rows.
  - unfold enrolled_count. simpl.
    now rewrite no_enrolled_after_section_dropped.
Qed.

Lemma delete_section_without_waitlist_witness :
  exists db',
    delete_section 1 Examples.frozen_section = Ok tt db'
    /\ (forall s', In s' (sections db') -> s_id s' = 1 -> s_deleted s' = true)
    /\ enrolled_count db' 1 = 0.
Proof.
  apply (delete_section_without_waitlist Examples.frozen_section 1
           (mkSection 1 2 2 true false 9) []); reflexivity.
Defined.

(** X11.  Deleting a listed section on whose waitlist anybody stands
    never returns: after the section is marked deleted and its Enrolled
    rows are Dropped, the first [drop_user_waitlist], run without a
    caller, raises [TypeError]; the waitlist table is as it was before
    the call. *)
Theorem delete_section_with_waitlist_raises db sid s rest :
  list_sections db [sid] = s :: rest ->
  select_waitlist_users sid db <> [] ->
  exists db',
    delete_section sid db = Raise TypeError db'
    /\ waitlist db' = waitlist db
    /\ (forall s', In s' (sections db') -> s_id s' = sid -> s_deleted s' = true)
    /\ enrolled_count db' sid = 0.
Proof.
  intros Hlist Hwait.
  rewrite (delete_section_listed db sid s rest Hlist).
  destruct (select_waitlist_users sid db) as [|u us]; [now destruct Hwait|].
  eexists. split; [reflexivity|]. split; [reflexivity|]. split.
  - intros s'. apply set_deleted_rows.
  - unfold enrolled_count. simpl.
    now rewrite no_enrolled_after_section_dropped.
Qed.

Lemma delete_section_with_waitlist_raises_witness :
  exists db',
    delete_section 1 Examples.one_waiting = Raise TypeError db'
    /\ waitlist db' = waitlist Examples.one_waiting
    /\ (forall s', In s' (sections db') -> s_id s' = 1 -> s_deleted s' = true)
    /\ enrolled_count db' 1 = 0.
Proof.
  apply (delete_section_with_waitlist_raises Examples.one_waiting 1
           (mkSection 1 1 2 false false 9) []).
  - reflexivity.
  - discriminate.
Defined.

Lemma db_of_delete_section db sid :
  db_of (delete_section sid db)
  = match list_sections db [sid] with
    | [] => db
    | _ :: _ =>
        mkDB (map (set_deleted sid) (sections db))
          (map (set_section_dropped sid) (enrollments db))
          (waitlist db)
    end.
Proof.
  destruct (list_sections db [sid]) as [|s rest] eqn:E.
  - now rewrite delete_section_not_found.
  - rewrite (delete_section_listed db sid s rest E).
    now destruct (select_waitlist_users sid db).
Qed.

(** X12.  What [delete_section] leaves alone, whether it returns or
    raises: the waitlist table; every enrollment row, which is still
    there with its user, section, grade and date; the enrollment rows of
    other sections; the rows of [sections] with another id. *)
Theorem delete_section_touches_only_section sid db :
  touches_only_section sid db (db_of (delete_section sid db)).
Proof.
  rewrite db_of_delete_section.
  destruct (list_sections db [sid]).
  - apply touches_only_section_refl.
  - apply touches_only_section_deleted.
Qed.



(** ** [update_section] *)

Lemma with_sections_same db : with_sections db (sections db) = db.
Proof. now destruct db. Qed.

Lemma fits_integer_spec z : fits_integer z = true <-> sql_integer z.
Proof.
  unfold fits_integer, sql_integer.
  rewrite andb_true_iff, Z.leb_le, Z.ltb_lt. tauto.
Qed.

Lemma fits_integer_opt_spec o :
  fits_integer_opt o = true <-> (forall z, o = Some z -> sql_integer z).
Proof.
  destruct o as [z|]; simpl.
  - rewrite fits_integer_spec. split.
    + intros H z' Hz'. now injection Hz' as <-.
    + intros H. now apply H.
  - split; [discriminate | reflexivity].
Qed.

Lemma update_binds_spec sid r :
  update_binds sid r = true <-> update_in_range sid r.
Proof.
  unfold update_binds, update_in_range.
  rewrite !andb_true_iff, !fits_integer_opt_spec, fits_integer_spec. tauto.
Qed.

Lemma update_binds_false sid r :
  ~ update_in_range sid r -> update_binds sid r = false.
Proof.
  intros H. destruct (update_binds sid r) eqn:E; [|reflexivity].
  now apply update_binds_spec in E.
Qed.

Lemma db_of_update_section sid r db :
  db_of (update_section sid r db)
  = if no_fields r then db
    else if update_binds sid r then update_sections sid r db else db.
Proof.
  unfold update_section. destruct (no_fields r); [reflexivity|].
  destruct (update_binds sid r); [|reflexivity].
  unfold bind, exec, query.
  now destruct (list_sections (update_sections sid r db) [sid]).
Qed.

Lemma list_sections_no_row db sid :
  section_rows db sid = [] -> list_sections db [sid] = [].
Proof.
  intros H. apply list_sections_missing_or_deleted.
  rewrite H. intros s [].
Qed.

(** X14.  The errors of [update_section] write nothing.  A request
    without any field is answered 400.  A request that carries an
    integer SQLite cannot store (or is made for such a section id) is
    answered 409: the write raises and is caught.  A request whose write
    goes through for an id that no row of [sections] carries is not
    answered 404: it ends in the unhandled [IndexError] of
    [sections[0]], the table being as before. *)
Theorem update_section_unknown_id sid r db :
  (no_fields r = true ->
   update_section sid r db
   = Raise (HTTPException 400 "No fields provided to update.") db)
  /\ (no_fields r = false -> ~ update_in_range sid r ->
      exists detail,
        update_section sid r db = Raise (HTTPException 409 detail) db)
  /\ (no_fields r = false -> update_in_range sid r ->
      section_rows db sid = [] ->
      update_section sid r db = Raise IndexError db).
Proof.
  unfold update_section. split; [|split].
  - now intros ->.
  - intros -> Hrange. rewrite (update_binds_false sid r Hrange).
    eexists. reflexivity.
  - intros -> Hrange Hrows.
    apply update_binds_spec in Hrange. rewrite Hrange.
    unfold bind, exec, query.
    assert (Hsame : update_sections sid r db = db).
    { unfold update_sections.
      rewrite (map_fixed (fun s => s_id s =? sid));
        [apply with_sections_same | | exact Hrows].
      intros s Hs. unfold apply_update. now rewrite Hs. }
    now rewrite Hsame, (list_sections_no_row db sid Hrows).
Qed.

Lemma update_section_unknown_id_witness :
  update_section 1
    (mkUpdateSectionRequest None None None None None None None None)
    Examples.open_section
  = Raise (HTTPException 400 "No fields provided to update.")
      Examples.open_section
  /\ (exists detail,
        update_section 42
          (mkUpdateSectionRequest None (Some (2 ^ 63)) None None None None
             None None)
          Examples.open_section
        = Raise (HTTPException 409 detail) Examples.open_section)
  /\ update_section 42
       (mkUpdateSectionRequest None (Some 30) None None None None None None)
       Examples.open_section
     = Raise IndexError Examples.open_section.
Proof.
  split; [|split].
  - apply (update_section_unknown_id 1
             (mkUpdateSectionRequest None None None None None None None None)
             Examples.open_section).
    reflexivity.
  - apply (update_section_unknown_id 42
             (mkUpdateSectionRequest None (Some (2 ^ 63)) None None None None
                None None)
             Examples.open_section).
    + reflexivity.
    + intros H. apply update_binds_spec in H. discriminate H.
  - apply (update_section_unknown_id 42
             (mkUpdateSectionRequest None (Some 30) None None None None
                None None)
             Examples.open_section).
    + reflexivity.
    + apply update_binds_spec. reflexivity.
    + reflexivity.
Defined.

Lemma apply_update_rows sid r l s :
  In s (map (apply_update sid r) l) -> s_id s = sid ->
  exists s0, In s0 l /\ s_id s0 = sid
    /\ s = mkSection (s_id s0)
             (or_keep (u_capacity r) (s_capacity s0))
             (or_keep (u_waitlist_capacity r) (s_waitlist_capacity s0))
             (or_keep (u_freeze r) (s_freeze s0))
             (s_deleted s0)
             (or_keep (u_instructor_id r) (s_instructor_id s0)).
Proof.
  intros Hin Hid. apply in_map_iff in Hin as [s0 [<- Hin]].
  unfold apply_update in *. exists s0.
  destruct (s_id s0 =? sid) eqn:E.
  - apply Z.eqb_eq in E. auto.
  - apply Z.eqb_neq in E. contradiction.
Qed.

(** X15.  Freezing closes a section to joins.  After an
    [update_section] whose request carries [freeze = true] and only
    integers that SQLite stores, returned or raised, every join for that
    section id is turned away and writes nothing: 400 for a caller who
    may act for the user, 403 otherwise. *)
Theorem no_join_after_freeze sid r db uid jwt_user jwt_roles now :
  u_freeze r = Some true ->
  update_in_range sid r ->
  sql_integer uid ->
  let db' := db_of (update_section sid r db) in
  create_enrollment uid (mkCreateEnrollmentRequest sid)
    jwt_user jwt_roles now db'
  = Raise (if authorized jwt_user jwt_roles uid
           then HTTPException 400 "Section is full and waitlist is full."
           else HTTPException 403 "Not authorized") db'.
Proof.
  intros Hfreeze Hrange _ db'. subst db'. rewrite db_of_update_section.
  replace (no_fields r) with false
    by (unfold no_fields; rewrite Hfreeze; simpl;
        now rewrite !andb_false_r).
  apply update_binds_spec in Hrange. rewrite Hrange.
  rewrite create_enrollment_outcome. simpl.
  destruct (authorized jwt_user jwt_roles uid); [|reflexivity].
  destruct (select_none_when_closed sid uid (update_sections sid r db))
    as [-> ->]; [|reflexivity].
  intros s Hin Hid. left. simpl in Hin.
  destruct (apply_update_rows sid r _ s Hin Hid) as [s0 [_ [_ ->]]].
  simpl. now rewrite Hfreeze.
Qed.

Lemma no_join_after_freeze_witness :
  create_enrollment 20 (mkCreateEnrollmentRequest 1) 20 [Student] 100
    (db_of (update_section 1
              (mkUpdateSectionRequest None None None None None None
                 (Some true) None)
              Examples.open_section))
  = Raise (HTTPException 400 "Section is full and waitlist is full.")
      (db_of (update_section 1
                (mkUpdateSectionRequest None None None None None None
                   (Some true) None)
                Examples.open_section)).
Proof.
  apply (no_join_after_freeze 1
           (mkUpdateSectionRequest None None None None None None
              (Some true) None)
           Examples.open_section 20 20 [Student] 100).
  - reflexivity.
  - apply update_binds_spec. reflexivity.
  - apply fits_integer_spec. reflexivity.
Defined.

Lemma section_rows_updated sid r db :
  section_rows (update_sections sid r db) sid
  = map (apply_update sid r) (section_rows db sid).
Proof.
  unfold section_rows, update_sections. simpl.
  apply filter_map_commute. intros s. unfold apply_update.
  destruct (s_id s =? sid) eqn:E; simpl; now rewrite ?E.
Qed.

(** X16.  The capacity is read afresh at every join.  On a section with
    one row, not deleted and not frozen after the update, an
    [update_section] that carries only integers SQLite stores and sets
    the capacity above the number of the section's enrollment rows makes
    the next join of an authorized caller a direct enrollment, with no
    waitlist position. *)
Theorem join_after_raising_capacity
  sid r db sec c uid jwt_user jwt_roles now :
  section_rows db sid = [sec] ->
  s_deleted sec = false ->
  or_keep (u_freeze r) (s_freeze sec) = false ->
  u_capacity r = Some c ->
  update_in_range sid r ->
  sql_integer uid ->
  count_section_enrollments db sid < c ->
  authorized jwt_user jwt_roles uid = true ->
  let db' := db_of (update_section sid r db) in
  let row := mkEnrollment uid sid Enrolled None now in
  create_enrollment uid (mkCreateEnrollmentRequest sid)
    jwt_user jwt_roles now db'
  = Ok (mkCreateEnrollmentResponse (hd row (pair_rows db uid sid)) None)
       (with_enrollments db' (enrollments db ++ [row])).
Proof.
  intros Hrows Hdel Hfr Hcap Hrange _ Hcount Hauth db' row. subst db'.
  rewrite db_of_update_section.
  replace (no_fields r) with false
    by (unfold no_fields; rewrite Hcap; simpl; now rewrite !andb_false_r).
  apply update_binds_spec in Hrange. rewrite Hrange.
  pose proof (section_rows_id _ _ _ Hrows) as Hid.
  apply (create_enrollment_direct (update_sections sid r db) uid sid
           jwt_user jwt_roles now (apply_update sid r sec)); auto.
  - now rewrite section_rows_updated, Hrows.
  - unfold apply_update. rewrite Hid, Z.eqb_refl. exact Hfr.
  - unfold apply_update. rewrite Hid, Z.eqb_refl. exact Hdel.
  - unfold apply_update. rewrite Hid, Z.eqb_refl. simpl.
    rewrite Hcap. exact Hcount.
Qed.

Lemma join_after_raising_capacity_witness :
  create_enrollment 20 (mkCreateEnrollmentRequest 1) 20 [Student] 100
    (db_of (update_section 1
              (mkUpdateSectionRequest None (Some 5) None None None None
                 None None)
              Examples.one_waiting))
  = Ok (mkCreateEnrollmentResponse (mkEnrollment 20 1 Enrolled None 100) None)
       (with_enrollments
          (db_of (update_section 1
                    (mkUpdateSectionRequest None (Some 5) None None None None
                       None None)
                    Examples.one_waiting))
          (enrollments Examples.one_waiting ++
           [mkEnrollment 20 1 Enrolled None 100])).
Proof.
  apply (join_after_raising_capacity 1
           (mkUpdateSectionRequest None (Some 5) None None None None None None)
           Examples.one_waiting (mkSection 1 1 2 false false 9) 5
           20 20 [Student] 100);
    first [ reflexivity
          | apply update_binds_spec; reflexivity
          | apply fits_integer_spec; reflexivity ].
Defined.

(** ** The choice of the authentication database *)

Lemma ro_index_cases n : (n + 1) mod 2 = 0 \/ (n + 1) mod 2 = 1.
Proof.
  pose proof (Z.mod_pos_bound (n + 1) 2). lia.
Qed.

(** X17.  A read-write connection is always to the primary file,
    whatever the two counters hold; the call leaves [rw_path] at 0 and
    does not touch [ro_path]. *)
Theorem read_write_goes_to_primary g :
  AuthDatabase.get_db false g
  = (inr (AuthDatabase.mkConnection
            "run/authentication/primary/fuse/auth.db" false),
     AuthDatabase.mkGlobals (AuthDatabase.ro_path g) 0).
Proof.
  unfold AuthDatabase.get_db. simpl length.
  change (Z.of_nat 1) with 1. now rewrite Z.mod_1_r.
Qed.

(** X18.  Read-only connections go round the two secondaries.  From any
    value of the counters, a call of [get_read_db] never raises and
    never hands out the primary file, leaves [rw_path] alone, and two
    calls in a row hand out the two secondary files, one each; the
    counter after two calls is the counter after none, once reduced
    modulo 2.  From the initial counters the first file used is the
    second of the list. *)
Theorem read_only_round_robin g :
  let r1 := AuthDatabase.get_read_db g in
  let r2 := AuthDatabase.get_read_db (snd r1) in
  (exists p1 p2,
     fst r1 = inr (AuthDatabase.mkConnection p1 true)
     /\ fst r2 = inr (AuthDatabase.mkConnection p2 true)
     /\ p1 <> p2
     /\ In p1 AuthDatabase.ro_paths /\ In p2 AuthDatabase.ro_paths
     /\ ~ In p1 AuthDatabase.rw_paths /\ ~ In p2 AuthDatabase.rw_paths)
  /\ AuthDatabase.rw_path (snd r2) = AuthDatabase.rw_path g
  /\ AuthDatabase.ro_path (snd r2) = AuthDatabase.ro_path g mod 2
  /\ fst (AuthDatabase.get_read_db AuthDatabase.initial)
     = inr (AuthDatabase.mkConnection
              "run/authentication/secondary2/fuse/auth.db" true).
Proof.
  intros r1 r2. subst r1 r2.
  unfold AuthDatabase.get_read_db, AuthDatabase.get_db.
  simpl length. change (Z.of_nat 2) with 2.
  cbn [snd fst AuthDatabase.ro_path AuthDatabase.rw_path].
  assert (Hmod : AuthDatabase.ro_path g mod 2
                 = ((AuthDatabase.ro_path g + 1) mod 2 + 1) mod 2).
  { rewrite Z.add_mod_idemp_l by lia.
    replace (AuthDatabase.ro_path g + 1 + 1)
      with (AuthDatabase.ro_path g + 1 * 2) by lia.
    now rewrite Z.mod_add by lia. }
  rewrite Hmod.
  destruct (ro_index_cases (AuthDatabase.ro_path g)) as [-> | ->].
  - split; [|repeat split].
    do 2 eexists. repeat split.
    + discriminate.
    + now left.
    + right. now left.
    + intros [H|[]]. discriminate.
    + intros [H|[]]. discriminate.
  - split; [|repeat split].
    do 2 eexists. repeat split.
    + discriminate.
    + right. now left.
    + now left.
    + intros [H|[]]. discriminate.
    + intros [H|[]]. discriminate.
Qed.

(** ** What leaving a waitlist leaves alone *)

Lemma filter_filter_implied {A} (f g : A -> bool) l :
  (forall x, f x = true -> g x = true) ->
  filter f (filter g l) = filter f l.
Proof.
  intros H. induction l as [|x l IH]; simpl; [reflexivity|].
  destruct (g x) eqn:Eg; simpl.
  - destruct (f x); now rewrite IH.
  - destruct (f x) eqn:Ef; [|exact IH].
    apply H in Ef. congruence.
Qed.

Lemma other_section_rows_after_removal uid sid sid' p l :
  sid' <> sid ->
  filter (on_section sid')
    (map (decrement sid p) (filter (fun x => negb (is_entry uid sid x)) l))
  = filter (on_section sid') l.
Proof.
  intros Hne.
  assert (Hoff : forall x, on_section sid' x = true -> on_section sid x = false).
  { intros x Hx. unfold on_section in *. apply Z.eqb_eq in Hx.
    apply Z.eqb_neq. congruence. }
  rewrite filter_map_fixed.
  - apply filter_filter_implied. intros x Hx.
    unfold is_entry. fold (on_section sid x).
    now rewrite (Hoff x Hx), andb_false_r.
  - intros x. apply decrement_section.
  - intros x Hx. unfold decrement. now rewrite (Hoff x Hx).
Qed.

(** X19.  [drop_user_waitlist] for a user and a section, whoever calls
    and however it ends, keeps the [sections] table, keeps the waitlist
    entries of every other section as they are, and removes from
    [enrollments] nothing but Waitlisted rows of that pair: every other
    row stays, unchanged, and no row is added. *)
Theorem drop_user_waitlist_touches_only_pair
  uid sid jwt_user jwt_roles db :
  let db' :=
    db_of (drop_user_waitlist uid sid
             (Injected jwt_user) (Injected jwt_roles) db) in
  sections db' = sections db
  /\ (forall sid', sid' <> sid ->
        filter (on_section sid') (waitlist db')
        = filter (on_section sid') (waitlist db))
  /\ (enrollments db' = enrollments db
      \/ enrollments db'
         = filter (fun e => negb (is_waitlisted_pair uid sid e))
             (enrollments db)).
Proof.
  intros db'. subst db'.
  destruct (authorized jwt_user jwt_roles uid) eqn:Hauth.
  - rewrite drop_user_waitlist_authorized by exact Hauth.
    destruct (entry_rows db uid sid) as [|w rest]; simpl; [auto|].
    split; [reflexivity|]. split; [|now right].
    intros sid' Hne. now apply other_section_rows_after_removal.
  - rewrite drop_user_waitlist_forbidden by exact Hauth. simpl. auto.
Qed.

(** ** Leaving a waitlist: what changes *)

(** C5, amended.  For a user who holds an entry on a section's waitlist,
    [drop_user_waitlist], called by that user or by a registrar,
    returns, and in the store it leaves:
    - the user has no entry on that section's waitlist;
    - the other entries are all there, in the same order, each with its
      user, section and date;
    - on that section every position behind the removed one is lower by
      one and every position before it is unchanged;
    - the entries of every other section are as they were;
    - [enrollments] is the old table without the pair's Waitlisted rows:
      those rows are deleted, not turned into Dropped, and every other
      row is left as it was.
    [drop_user_enrollment], on the other hand, keeps every row of
    [enrollments] and changes statuses only. *)
Theorem drop_user_waitlist_deletes_waitlisted_row
  db user_id section_id jwt_user jwt_roles w rest :
  authorized jwt_user jwt_roles user_id = true ->
  entry_rows db user_id section_id = w :: rest ->
  let others :=
    filter (fun x => negb (is_entry user_id section_id x)) (waitlist db) in
  exists db',
    drop_user_waitlist user_id section_id
      (Injected jwt_user) (Injected jwt_roles) db = Ok tt db'
    /\ sections db' = sections db
    /\ entry_rows db' user_id section_id = []
    /\ map (fun x => (w_user_id x, w_section_id x, w_date x)) (waitlist db')
       = map (fun x => (w_user_id x, w_section_id x, w_date x)) others
    /\ section_positions db' section_id
       = map (shift (w_position w))
           (map w_position (filter (on_section section_id) others))
    /\ (forall sid', sid' <> section_id ->
          filter (on_section sid') (waitlist db')
          = filter (on_section sid') (waitlist db))
    /\ enrollments db'
       = filter (fun e => negb (is_pair user_id section_id e
                                && status_eqb (e_status e) Waitlisted))
           (enrollments db)
    /\ (forall e, In e (pair_rows db' user_id section_id) ->
          In e (pair_rows db user_id section_id) /\ e_status e <> Waitlisted)
    /\ (forall u s,
          map (fun e => (e_user_id e, e_section_id e, e_grade e, e_date e))
            (enrollments (db_of (drop_user_enrollment u s db)))
          = map (fun e => (e_user_id e, e_section_id e, e_grade e, e_date e))
              (enrollments db)).
Proof.
  intros Hauth Hrows others.
  eexists. split; [now rewrite drop_user_waitlist_authorized, Hrows|].
  cbn [sections enrollments waitlist]. fold others.
  split; [reflexivity|]. split; [|split; [|split; [|split; [|split; [|split]]]]].
  - unfold entry_rows. cbn [waitlist].
    rewrite filter_map_commute
      by (intros x; unfold decrement, is_entry;
          now destruct (on_section section_id x && _)).
    replace (filter (is_entry user_id section_id) others)
      with (@nil WaitlistRow); [reflexivity|].
    symmetry. unfold others.
    induction (waitlist db) as [|x l IH]; simpl; [reflexivity|].
    destruct (is_entry user_id section_id x) eqn:E; simpl; rewrite ?E; exact IH.
  - rewrite map_map. apply map_ext. intros x. unfold decrement.
    now destruct (on_section section_id x && (w_position x >? w_position w)).
  - unfold section_positions. cbn [waitlist].
    apply positions_after_decrement.
  - intros sid' Hne. now apply other_section_rows_after_removal.
  - reflexivity.
  - intros e He. unfold pair_rows in *. cbn [enrollments] in He.
    apply filter_In in He as [He Hp].
    apply filter_In in He as [He Hw].
    split; [now apply filter_In|].
    unfold is_waitlisted_pair in Hw. rewrite Hp in Hw. simpl in Hw.
    intros Hs. rewrite Hs in Hw. discriminate Hw.
  - intros u s. rewrite db_of_drop_user_enrollment.
    unfold update_enrollment_dropped. simpl.
    rewrite map_map. apply map_ext. intros e. unfold set_dropped.
    now destruct (is_pair u s e && status_eqb (e_status e) Enrolled).
Qed.

Lemma drop_user_waitlist_deletes_waitlisted_row_witness :
  exists db',
    drop_user_waitlist 13 1 (Injected 13) (Injected [Student])
      Examples.three_waiting = Ok tt db'
    /\ waitlist db'
       = [mkWaitlist 12 1 0 60; mkWaitlist 13 2 0 62; mkWaitlist 14 1 1 63]
    /\ section_positions db' 1 = [0; 1]
    /\ enrollments db'
       = [mkEnrollment 10 1 Enrolled None 50;
          mkEnrollment 12 1 Waitlisted None 60;
          mkEnrollment 13 2 Waitlisted None 62;
          mkEnrollment 14 1 Waitlisted None 63].
Proof.
  destruct (drop_user_waitlist_deletes_waitlisted_row Examples.three_waiting
              13 1 13 [Student] (mkWaitlist 13 1 1 61) [] eq_refl eq_refl)
    as [db' [Hcall [_ [_ [_ [Hpos [_ [Henr _]]]]]]]].
  exists db'. split; [exact Hcall|].
  split; [|split; [exact Hpos | exact Henr]].
  vm_compute in Hcall. now injection Hcall as <-.
Defined.
